(** * Stock-Trading-Web-App: the trading models and the buy endpoint

    A shallow embedding of [webapp/trading/models.py] and of the
    [buy_stock] action of [webapp/trading/views.py], with the properties
    of the portfolio accounting logic proved over it.

    Conventions of the embedding.

    - A [Decimal] amount of a [DecimalField(decimal_places=2)] column is
      the integer number of hundredths it denotes ([Decimal('150.00')] is
      [15000]).  Addition, subtraction, comparison and multiplication by
      an [int] of such amounts are the integer operations: Python's
      decimal arithmetic is exact as long as a coefficient stays within
      the 28 significant digits of the default context, which amounts of
      at most ten digits and 32-bit share counts do.  An amount with more
      than two decimal places, which an instance can hold before its
      column rounds it, is not represented.
    - The balance of a portfolio instance is such a [Decimal], as it is
      in a row read back from the database or in an instance created
      with one.
    - A model instance is a record that carries its primary key; a table
      is a finite map from key to row.  The [StockHolding] table has a
      unique index on (portfolio, stock): it is the finite map from that
      pair to the row's quantity.  The
      [Transaction] and [PortfolioSnapshot] tables are only ever appended
      to and are lists in insertion order.
    - A method runs on a pair of its receiver [self] and the database and
      either returns a value or raises; both outcomes come with the
      receiver and the database as the method left them, so that an
      exception raised half way keeps the writes made before it.
    - [timezone.now()] is the parameter [now] of the methods that stamp
      a row.  Column constraints enforced by the database backend only
      (field widths, CHECK constraints) are not part of the model. *)

From Stdlib Require Import ZArith String Ascii List Lia.
From stdpp Require Import gmap strings list fin_maps pretty.

Open Scope Z_scope.

(** ** Values *)

(** Hundredths of a currency unit. *)
Abbreviation Decimal := Z (only parsing).

(** Timestamps. *)
Abbreviation DateTime := Z (only parsing).

(** ** Exceptions and results *)

Inductive Exception : Type :=
| ValidationError (message : string)
| DoesNotExist
| MultipleObjectsReturned
| Http404
| ValueError
| TypeError
| AttributeError.

Inductive Result (A : Type) : Type :=
| Ok (a : A)
| Raise (e : Exception).
Arguments Ok {A} a.
Arguments Raise {A} e.

(** The error kinds of the accounting logic, as the code raises them. *)
Definition InvalidStock : Exception := ValidationError "Stock price must be positive".
Definition InvalidHolding : Exception := ValidationError "Quantity cannot be negative".
Definition InsufficientFunds : Exception := ValidationError "Insufficient funds".

(** ** The state-and-exception monad of methods *)

Definition M (S A : Type) : Type := S → Result A * S.

Definition ret {S A} (a : A) : M S A := λ s, (Ok a, s).
Definition raise {S A} (e : Exception) : M S A := λ s, (Raise e, s).
Definition bind {S A B} (m : M S A) (k : A → M S B) : M S B :=
  λ s, match m s with
       | (Ok a, s') => k a s'
       | (Raise e, s') => (Raise e, s')
       end.

Notation "x <~ m ;; k" := (bind m (λ x, k))
  (at level 100, m at next level, right associativity).
Notation "m ;;; k" := (bind m (λ _, k))
  (at level 100, right associativity).

(** ** Model instances *)

Module Stock.
Record t : Type := mk {
  pk : Z;
  symbol : string;
  name : string;
  current_price : Decimal;
  last_updated : DateTime }.
End Stock.

Module Portfolio.
Record t : Type := mk {
  pk : Z;
  user : Z;
  balance : Decimal;
  created_at : DateTime }.
End Portfolio.

Module StockHolding.
Record t : Type := mk {
  portfolio : Z;
  stock : Z;
  quantity : Z }.
End StockHolding.

Inductive TransactionType : Type := BUY | SELL.

Module Transaction.
Record t : Type := mk {
  user : Z;
  stock : Z;
  transaction_type : TransactionType;
  quantity : Z;
  price : Decimal;
  timestamp : DateTime;
  total_amount : option Decimal }.
End Transaction.

Module PortfolioSnapshot.
Record t : Type := mk {
  portfolio : Z;
  total_value : Decimal;
  cash_balance : Decimal;
  timestamp : DateTime }.
End PortfolioSnapshot.

(** ** The database *)

Record Database : Type := mkDatabase {
  stocks : gmap Z Stock.t;
  portfolios : gmap Z Portfolio.t;
  holdings : gmap (Z * Z) Z;
  transactions : list Transaction.t;
  snapshots : list PortfolioSnapshot.t }.

Definition empty_db : Database := mkDatabase ∅ ∅ ∅ [] [].

Definition with_stocks (f : gmap Z Stock.t → gmap Z Stock.t) (db : Database) : Database :=
  mkDatabase (f (stocks db)) (portfolios db) (holdings db) (transactions db) (snapshots db).
Definition with_portfolios (f : gmap Z Portfolio.t → gmap Z Portfolio.t) (db : Database) : Database :=
  mkDatabase (stocks db) (f (portfolios db)) (holdings db) (transactions db) (snapshots db).
Definition with_holdings (f : gmap (Z * Z) Z → gmap (Z * Z) Z) (db : Database) : Database :=
  mkDatabase (stocks db) (portfolios db) (f (holdings db)) (transactions db) (snapshots db).
Definition with_transactions (f : list Transaction.t → list Transaction.t) (db : Database) : Database :=
  mkDatabase (stocks db) (portfolios db) (holdings db) (f (transactions db)) (snapshots db).
Definition with_snapshots (f : list PortfolioSnapshot.t → list PortfolioSnapshot.t)
    (db : Database) : Database :=
  mkDatabase (stocks db) (portfolios db) (holdings db) (transactions db) (f (snapshots db)).

(** Access to the two halves of a method's state. *)
Definition self {T} : M (T * Database) T := λ s, (Ok (fst s), s).
Definition set_self {T} (f : T → T) : M (T * Database) unit := λ s, (Ok tt, (f (fst s), snd s)).
Definition query {T A} (f : Database → A) : M (T * Database) A := λ s, (Ok (f (snd s)), s).
Definition execute {T} (f : Database → Database) : M (T * Database) unit :=
  λ s, (Ok tt, (fst s, f (snd s))).

(** [invoke obj m]: call method [m] on the object [obj] from inside another
    method; the caller gets the result together with [obj] as [m] left it. *)
Definition invoke {T U A} (obj : U) (m : M (U * Database) A) : M (T * Database) (A * U) :=
  λ s, match m (obj, snd s) with
       | (Ok a, (obj', db')) => (Ok (a, obj'), (fst s, db'))
       | (Raise e, (_, db')) => (Raise e, (fst s, db'))
       end.

(** ** str.upper, on ASCII *)

(** Symbols are strings of ASCII characters: the letters a to z go to A to
    Z and every other character stays.  Letters outside ASCII, which
    Python's [str.upper] also maps, are not represented. *)

Definition upper_ascii (c : ascii) : ascii :=
  let n := nat_of_ascii c in
  if ((97 <=? n) && (n <=? 122))%nat then ascii_of_nat (n - 32) else c.

Fixpoint upper (s : string) : string :=
  match s with
  | EmptyString => EmptyString
  | String c s' => String (upper_ascii c) (upper s')
  end.

(** ** class Stock *)

Definition Stock_set_symbol (v : string) (s : Stock.t) : Stock.t :=
  Stock.mk (Stock.pk s) v (Stock.name s) (Stock.current_price s) (Stock.last_updated s).

(** [Stock.clean] *)
Definition Stock_clean : M (Stock.t * Database) unit :=
  this <~ self ;;
  set_self (Stock_set_symbol (upper (Stock.symbol this))) ;;;
  this <~ self ;;
  if Stock.current_price this <=? 0
  then raise InvalidStock
  else ret tt.

(** [Stock.save]: validate, then write the row under the instance's key. *)
Definition Stock_save : M (Stock.t * Database) unit :=
  Stock_clean ;;;
  this <~ self ;;
  execute (with_stocks (insert (Stock.pk this) this)).

(** [Stock.objects.create(symbol=..., name=..., current_price=...)]: build
    the instance ([last_updated] defaults to now), save it under a key the
    table does not use yet, and return it. *)
Definition Stock_objects_create (now : DateTime) (symbol name : string) (current_price : Decimal)
    : M (unit * Database) Stock.t :=
  k <~ query (λ db, fresh (dom (stocks db))) ;;
  r <~ invoke (Stock.mk k symbol name current_price now) Stock_save ;;
  ret (snd r).

(** ** class StockHolding *)

Definition StockHolding_set_quantity (v : Z) (h : StockHolding.t) : StockHolding.t :=
  StockHolding.mk (StockHolding.portfolio h) (StockHolding.stock h) v.

(** [StockHolding.clean] *)
Definition StockHolding_clean : M (StockHolding.t * Database) unit :=
  this <~ self ;;
  if StockHolding.quantity this <? 0
  then raise InvalidHolding
  else ret tt.

(** [StockHolding.save]: validate, then write the row of the instance's
    (portfolio, stock) pair. *)
Definition StockHolding_save : M (StockHolding.t * Database) unit :=
  StockHolding_clean ;;;
  this <~ self ;;
  execute (with_holdings
             (insert (StockHolding.portfolio this, StockHolding.stock this)
                (StockHolding.quantity this))).

(** [StockHolding.objects.get_or_create(portfolio=..., stock=...,
    defaults={'quantity': ...})]: the row of the pair when there is one,
    otherwise a new instance built from the defaults and saved.  The
    boolean tells whether the row was created. *)
Definition StockHolding_objects_get_or_create {T} (portfolio stock : Z) (quantity : Z)
    : M (T * Database) (StockHolding.t * bool) :=
  found <~ query (λ db, holdings db !! (portfolio, stock)) ;;
  match found with
  | Some held => ret (StockHolding.mk portfolio stock held, false)
  | None =>
      r <~ invoke (StockHolding.mk portfolio stock quantity) StockHolding_save ;;
      ret (snd r, true)
  end.

(** [holding.stock]: follow the foreign key. *)
Definition StockHolding_get_stock {T} (holding : StockHolding.t) : M (T * Database) Stock.t :=
  found <~ query (λ db, stocks db !! StockHolding.stock holding) ;;
  match found with
  | Some s => ret s
  | None => raise DoesNotExist
  end.

(** ** class Transaction *)

Definition Transaction_set_total_amount (v : option Decimal) (t : Transaction.t) : Transaction.t :=
  Transaction.mk (Transaction.user t) (Transaction.stock t) (Transaction.transaction_type t)
    (Transaction.quantity t) (Transaction.price t) (Transaction.timestamp t) v.

(** [Transaction.save], for an instance that has no row yet: compute the
    total, then insert. *)
Definition Transaction_save : M (Transaction.t * Database) unit :=
  set_self (λ t, Transaction_set_total_amount
                   (Some (Transaction.price t * Transaction.quantity t)) t) ;;;
  this <~ self ;;
  execute (with_transactions (λ l, l ++ [this])).

(** [Transaction.objects.create(user=..., stock=..., transaction_type=...,
    quantity=..., price=...)]; [timestamp] is [auto_now_add] and
    [total_amount] starts as NULL. *)
Definition Transaction_objects_create {T} (now : DateTime) (user stock : Z)
    (transaction_type : TransactionType) (quantity : Z) (price : Decimal)
    : M (T * Database) Transaction.t :=
  r <~ invoke (Transaction.mk user stock transaction_type quantity price now None)
         Transaction_save ;;
  ret (snd r).

(** ** class PortfolioSnapshot *)

(** [PortfolioSnapshot.objects.create(portfolio=..., total_value=...,
    cash_balance=...)]; [timestamp] defaults to now. *)
Definition PortfolioSnapshot_objects_create {T} (now : DateTime) (portfolio : Z)
    (total_value cash_balance : Decimal) : M (T * Database) PortfolioSnapshot.t :=
  let snapshot := PortfolioSnapshot.mk portfolio total_value cash_balance now in
  execute (with_snapshots (λ l, l ++ [snapshot])) ;;;
  ret snapshot.

(** ** class Portfolio *)

Definition Portfolio_set_balance (v : Decimal) (p : Portfolio.t) : Portfolio.t :=
  Portfolio.mk (Portfolio.pk p) (Portfolio.user p) v (Portfolio.created_at p).

(** [Portfolio.save] is Django's own: write the row under the instance's key. *)
Definition Portfolio_save : M (Portfolio.t * Database) unit :=
  this <~ self ;;
  execute (with_portfolios (insert (Portfolio.pk this) this)).

(** [Portfolio.objects.create(user=..., balance=...)], for a user who has
    no portfolio yet; the unique index of the one-to-one field, which
    refuses a second portfolio of a user, is not part of the model. *)
Definition Portfolio_objects_create (now : DateTime) (user : Z) (balance : Decimal)
    : M (unit * Database) Portfolio.t :=
  k <~ query (λ db, fresh (dom (portfolios db))) ;;
  r <~ invoke (Portfolio.mk k user balance now) Portfolio_save ;;
  ret (snd r).

(** [Portfolio.can_buy_stock] *)
Definition Portfolio_can_buy_stock (stock : Stock.t) (quantity : Z)
    : M (Portfolio.t * Database) bool :=
  this <~ self ;;
  let total_cost := Stock.current_price stock * quantity in
  ret (Portfolio.balance this >=? total_cost).

(** [Portfolio.buy_stock] *)
Definition Portfolio_buy_stock (now : DateTime) (stock : Stock.t) (quantity : Z)
    : M (Portfolio.t * Database) unit :=
  affordable <~ Portfolio_can_buy_stock stock quantity ;;
  if negb affordable then raise InsufficientFunds else
  let total_cost := Stock.current_price stock * quantity in
  set_self (λ p, Portfolio_set_balance (Portfolio.balance p - total_cost) p) ;;;
  Portfolio_save ;;;
  this <~ self ;;
  r <~ StockHolding_objects_get_or_create (Portfolio.pk this) (Stock.pk stock) 0 ;;
  let holding := fst r in
  let holding := StockHolding_set_quantity (StockHolding.quantity holding + quantity) holding in
  invoke holding StockHolding_save ;;;
  Transaction_objects_create now (Portfolio.user this) (Stock.pk stock) BUY quantity
    (Stock.current_price stock) ;;;
  ret tt.

(** [self.holdings.all()]: the holdings whose portfolio is [portfolio], in
    the order the table yields them. *)
Definition holdings_rows (db : Database) : list StockHolding.t :=
  (λ r, StockHolding.mk (fst (fst r)) (snd (fst r)) (snd r)) <$> map_to_list (holdings db).

Definition holdings_all (portfolio : Z) (db : Database) : list StockHolding.t :=
  filter (λ h, StockHolding.portfolio h = portfolio) (holdings_rows db).

(** [sum(holding.stock.current_price * holding.quantity for holding in l)]:
    the generator is consumed from the left, starting from [acc]. *)
Fixpoint sum_holdings {T} (acc : Decimal) (l : list StockHolding.t) : M (T * Database) Decimal :=
  match l with
  | [] => ret acc
  | holding :: l' =>
      s <~ StockHolding_get_stock holding ;;
      sum_holdings (acc + Stock.current_price s * StockHolding.quantity holding) l'
  end.

(** [Portfolio.calculate_total_value] *)
Definition Portfolio_calculate_total_value : M (Portfolio.t * Database) Decimal :=
  this <~ self ;;
  l <~ query (holdings_all (Portfolio.pk this)) ;;
  holdings_value <~ sum_holdings 0 l ;;
  ret (Portfolio.balance this + holdings_value).

(** [Portfolio.create_daily_snapshot] *)
Definition Portfolio_create_daily_snapshot (now : DateTime)
    : M (Portfolio.t * Database) PortfolioSnapshot.t :=
  this <~ self ;;
  total_value <~ Portfolio_calculate_total_value ;;
  PortfolioSnapshot_objects_create now (Portfolio.pk this) total_value (Portfolio.balance this).

(** ** The request and Python's [int] *)

(** What [request.data.get(key)] can return: nothing, a string, or an
    integer of a JSON body.  The other values of a JSON body (lists,
    objects, floats, booleans) are not represented. *)
Inductive Value : Type :=
| VNone
| VStr (s : string)
| VInt (n : Z).

Record Request : Type := mkRequest {
  request_user : Z;
  data_symbol : Value;
  data_quantity : Value }.

Record Response : Type := mkResponse {
  status_code : Z;
  status : string;
  message : string }.

Definition HTTP_200_OK : Z := 200.
Definition HTTP_400_BAD_REQUEST : Z := 400.

(** White space that [int] strips from both ends of a string. *)
Definition is_space (c : ascii) : bool :=
  let n := nat_of_ascii c in
  (((9 <=? n) && (n <=? 13)) || ((28 <=? n) && (n <=? 32)))%nat.

Fixpoint lstrip (l : list ascii) : list ascii :=
  match l with
  | c :: l' => if is_space c then lstrip l' else l
  | [] => []
  end.

Definition strip (l : list ascii) : list ascii := rev (lstrip (rev (lstrip l))).

Definition digit_value (c : ascii) : option Z :=
  let n := nat_of_ascii c in
  if ((48 <=? n) && (n <=? 57))%nat then Some (Z.of_nat (n - 48)) else None.

(** Decimal digits, where single underscores may separate digits;
    [after_digit] tells whether the previous character was a digit. *)
Fixpoint parse_digits (acc : Z) (after_digit : bool) (l : list ascii) : option Z :=
  match l with
  | [] => if after_digit then Some acc else None
  | c :: l' =>
      if Ascii.eqb c "_"
      then (if after_digit then parse_digits acc false l' else None)
      else match digit_value c with
           | Some d => parse_digits (10 * acc + d) true l'
           | None => None
           end
  end.

(** [int(s)] for a string, base ten: optional white space, an optional
    sign, digits.  Digits are the ASCII ones; the interpreter's limit on
    the length of the string is not modelled. *)
Definition int_of_str (s : string) : option Z :=
  match strip (list_ascii_of_string s) with
  | c :: l' =>
      if Ascii.eqb c "-" then Z.opp <$> parse_digits 0 false l'
      else if Ascii.eqb c "+" then parse_digits 0 false l'
      else parse_digits 0 false (c :: l')
  | [] => None
  end.

(** [int(v)] *)
Definition python_int {S} (v : Value) : M S Z :=
  match v with
  | VNone => raise TypeError
  | VInt n => ret n
  | VStr s => match int_of_str s with
              | Some n => ret n
              | None => raise ValueError
              end
  end.

(** [v.upper()] *)
Definition value_upper {S} (v : Value) : M S string :=
  match v with
  | VStr s => ret (upper s)
  | _ => raise AttributeError
  end.

(** [f'{v}'] *)
Definition format_value (v : Value) : string :=
  match v with
  | VNone => "None"
  | VStr s => s
  | VInt n => pretty n
  end.

(** [try: body except (ValueError, TypeError): handler] *)
Definition try_except_ValueError_TypeError {S A} (body handler : M S A) : M S A :=
  λ s, match body s with
       | (Raise ValueError, s') => handler s'
       | (Raise TypeError, s') => handler s'
       | r => r
       end.

(** ** The querysets of the view *)

(** [get_object_or_404(Stock, symbol=symbol)] *)
Definition get_object_or_404_Stock {T} (symbol : string) : M (T * Database) Stock.t :=
  found <~ query (λ db, filter (λ s, Stock.symbol s = symbol) (snd <$> map_to_list (stocks db))) ;;
  match found with
  | [] => raise Http404
  | [s] => ret s
  | _ => raise MultipleObjectsReturned
  end.

(** [QuerySet.first()]: the row of least primary key, or [None]. *)
Definition first_by_pk (l : list Portfolio.t) : option Portfolio.t :=
  foldr (λ p found, match found with
                    | Some q => if Portfolio.pk q <? Portfolio.pk p then Some q else Some p
                    | None => Some p
                    end) None l.

(** [PortfolioViewSet.get_queryset().first()] *)
Definition get_queryset_first {T} (request : Request) : M (T * Database) (option Portfolio.t) :=
  query (λ db, first_by_pk (filter (λ p, Portfolio.user p = request_user request)
                              (snd <$> map_to_list (portfolios db)))).

(** ** PortfolioViewSet.buy_stock *)

Definition PortfolioViewSet_buy_stock (now : DateTime) (request : Request)
    : M (unit * Database) Response :=
  try_except_ValueError_TypeError
    (let symbol := data_symbol request in
     quantity <~ python_int (data_quantity request) ;;
     symbol_upper <~ value_upper symbol ;;
     stock <~ get_object_or_404_Stock symbol_upper ;;
     found <~ get_queryset_first request ;;
     match found with
     | None => raise AttributeError
     | Some portfolio =>
         r <~ invoke portfolio (Portfolio_can_buy_stock stock quantity) ;;
         if fst r
         then
           invoke (snd r) (Portfolio_buy_stock now stock quantity) ;;;
           ret (mkResponse HTTP_200_OK "success"
                  ("Successfully purchased " +:+ pretty quantity +:+ " shares of "
                     +:+ format_value symbol))
         else
           ret (mkResponse HTTP_400_BAD_REQUEST "error" "Insufficient funds for this purchase")
     end)
    (ret (mkResponse HTTP_400_BAD_REQUEST "error" "Invalid quantity provided")).

(** ** Operations and reachable databases *)

(** The calls the application makes on a database.  [run] gives the
    database a call leaves behind, whether it returned or raised. *)
Inductive Operation : Type :=
| OpStockSave (s : Stock.t)
| OpStockCreate (now : DateTime) (symbol name : string) (current_price : Decimal)
| OpPortfolioSave (p : Portfolio.t)
| OpPortfolioCreate (now : DateTime) (user : Z) (balance : Decimal)
| OpStockHoldingSave (h : StockHolding.t)
| OpStockHoldingGetOrCreate (portfolio stock quantity : Z)
| OpTransactionCreate (now : DateTime) (user stock : Z) (ty : TransactionType)
    (quantity : Z) (price : Decimal)
| OpBuyStock (now : DateTime) (p : Portfolio.t) (stock : Stock.t) (quantity : Z)
| OpCreateDailySnapshot (now : DateTime) (p : Portfolio.t)
| OpViewBuyStock (now : DateTime) (request : Request).

Definition db_after {T A} (r : Result A * (T * Database)) : Database := snd (snd r).

Definition run (op : Operation) (db : Database) : Database :=
  match op with
  | OpStockSave s => db_after (Stock_save (s, db))
  | OpStockCreate now symbol name price =>
      db_after (Stock_objects_create now symbol name price (tt, db))
  | OpPortfolioSave p => db_after (Portfolio_save (p, db))
  | OpPortfolioCreate now user balance =>
      db_after (Portfolio_objects_create now user balance (tt, db))
  | OpStockHoldingSave h => db_after (StockHolding_save (h, db))
  | OpStockHoldingGetOrCreate portfolio stock quantity =>
      db_after (StockHolding_objects_get_or_create portfolio stock quantity (tt, db))
  | OpTransactionCreate now user stock ty quantity price =>
      db_after (Transaction_objects_create now user stock ty quantity price (tt, db))
  | OpBuyStock now p stock quantity => db_after (Portfolio_buy_stock now stock quantity (p, db))
  | OpCreateDailySnapshot now p => db_after (Portfolio_create_daily_snapshot now (p, db))
  | OpViewBuyStock now request => db_after (PortfolioViewSet_buy_stock now request (tt, db))
  end.

Inductive reachable : Database → Prop :=
| reachable_empty : reachable empty_db
| reachable_run op db : reachable db → reachable (run op db).

(** ** Quantities the statements speak of *)

(** The quantity held of a stock in a portfolio; no row counts as none held. *)
Definition held (db : Database) (portfolio stock : Z) : Z :=
  default 0 (holdings db !! (portfolio, stock)).

(** The current price of the stock with key [k]. *)
Definition stock_price (db : Database) (k : Z) : Decimal :=
  from_option Stock.current_price 0 (stocks db !! k).

(** The sum of quantity times current price over a collection of holdings,
    as the specification writes it. *)
Definition spec_holdings_value (db : Database) (l : list StockHolding.t) : Decimal :=
  foldr (λ h acc, StockHolding.quantity h * stock_price db (StockHolding.stock h) + acc) 0 l.

(** ** The fixture of tests/model.py: a user with 1000.00 and AAPL at 150.00 *)

Definition test_stock : Stock.t := Stock.mk 1 "AAPL" "Apple Inc." 15000 0.
Definition test_portfolio : Portfolio.t := Portfolio.mk 1 7 100000 0.
Definition test_db : Database :=
  mkDatabase {[1 := test_stock]} {[1 := test_portfolio]} ∅ [] [].

(** The same portfolio with two holdings: five AAPL at 150.00 and three
    MSFT at 300.00. *)
Definition two_holdings_db : Database :=
  mkDatabase {[1 := test_stock; 2 := Stock.mk 2 "MSFT" "Microsoft" 30000 0]}
    {[1 := test_portfolio]} {[(1, 1) := 5; (1, 2) := 3]} [] [].

(** Two portfolios that both hold AAPL: the first holds five AAPL and
    three MSFT, the second two AAPL. *)
Definition two_portfolios_db : Database :=
  mkDatabase {[1 := test_stock; 2 := Stock.mk 2 "MSFT" "Microsoft" 30000 0]}
    {[1 := test_portfolio; 2 := Portfolio.mk 2 8 5000 0]}
    {[(1, 1) := 5; (1, 2) := 3; (2, 1) := 2]} [] [].

(** The calls that set the fixture up: save the stock, then the portfolio. *)
Definition fixture_operations : list Operation :=
  [OpStockSave test_stock; OpPortfolioSave test_portfolio].

(** ** Invariants of the data *)

(** No holding has a negative quantity. *)
Definition holdings_nonneg (db : Database) : Prop :=
  ∀ portfolio stock q, holdings db !! (portfolio, stock) = Some q → 0 ≤ q.


(** Every recorded transaction carries its total: price times quantity. *)
Definition totalled (t : Transaction.t) : Prop :=
  Transaction.total_amount t = Some (Transaction.price t * Transaction.quantity t).

(** Every holding belongs to a stored portfolio. *)
Definition holdings_owned (db : Database) : Prop :=
  ∀ portfolio stock, is_Some (holdings db !! (portfolio, stock)) →
                     is_Some (portfolios db !! portfolio).

(** A series of buys made one after the other on the same instance, as a
    caller of [buy_stock] makes them; it stops at the first that raises. *)
Fixpoint buy_each (now : DateTime) (orders : list (Stock.t * Z))
    : M (Portfolio.t * Database) unit :=
  match orders with
  | [] => ret tt
  | order :: orders' =>
      Portfolio_buy_stock now (fst order) (snd order) ;;;
      buy_each now orders'
  end.

(** The sum of the total amounts of a list of transactions. *)
Definition sum_total_amounts (l : list Transaction.t) : Decimal :=
  foldr (λ t acc, default 0 (Transaction.total_amount t) + acc) 0 l.

(** ** PortfolioViewSet.handle_exception *)

(** What can reach the handler: an exception of the models and querysets,
    or rest_framework's [ValidationError], the class views.py imports under
    that name, with its rendering as a string. *)
Inductive Raised : Type :=
| Django (e : Exception)
| RestFrameworkValidationError (str : string).

(** What the handler does: answer with a status and the 'error' entry of
    the body, or hand the exception to the handler of the framework. *)
Inductive Handled : Type :=
| ErrorResponse (status_code : Z) (error : string)
| SuperHandleException (exc : Raised).

Definition HTTP_404_NOT_FOUND : Z := 404.

(** [PortfolioViewSet.handle_exception].  Of the exceptions of the models
    only [DoesNotExist] is an [ObjectDoesNotExist]; their [ValidationError]
    is django.core's and no instance of rest_framework's. *)
Definition PortfolioViewSet_handle_exception (exc : Raised) : Handled :=
  match exc with
  | Django DoesNotExist => ErrorResponse HTTP_404_NOT_FOUND "Requested resource not found"
  | RestFrameworkValidationError str => ErrorResponse HTTP_400_BAD_REQUEST str
  | _ => SuperHandleException exc
  end.

(** The status code of an answer, or the exception that escaped. *)
Definition response_status (r : Result Response) : Result Z :=
  match r with
  | Ok response => Ok (status_code response)
  | Raise e => Raise e
  end.

(** * Properties *)

(** ** Running [buy_stock] *)

(** The three outcomes of [buy_stock], each with the state it leaves. *)
Lemma buy_stock_run now p stock quantity db :
  let total_cost := Stock.current_price stock * quantity in
  let key := (Portfolio.pk p, Stock.pk stock) in
  let p' := Portfolio_set_balance (Portfolio.balance p - total_cost) p in
  Portfolio_buy_stock now stock quantity (p, db) =
    if Portfolio.balance p <? total_cost then (Raise InsufficientFunds, (p, db))
    else if held db (Portfolio.pk p) (Stock.pk stock) + quantity <? 0 then
      (Raise InvalidHolding,
       (p', mkDatabase (stocks db) (<[Portfolio.pk p := p']> (portfolios db))
              (<[key := held db (Portfolio.pk p) (Stock.pk stock)]> (holdings db))
              (transactions db) (snapshots db)))
    else
      (Ok tt,
       (p', mkDatabase (stocks db) (<[Portfolio.pk p := p']> (portfolios db))
              (<[key := held db (Portfolio.pk p) (Stock.pk stock) + quantity]> (holdings db))
              (transactions db ++
                 [Transaction.mk (Portfolio.user p) (Stock.pk stock) BUY quantity
                    (Stock.current_price stock) now (Some total_cost)])
              (snapshots db))).
Proof.
  intros total_cost key p'. subst total_cost key p'.
  destruct db as [st po ho tr sn]; destruct p as [k u b c].
  cbv beta iota zeta delta
    [Portfolio_buy_stock Portfolio_can_buy_stock Portfolio_save
     StockHolding_objects_get_or_create StockHolding_save StockHolding_clean
     StockHolding_set_quantity Transaction_objects_create Transaction_save
     Transaction_set_total_amount Portfolio_set_balance
     bind self set_self query execute invoke ret raise held default id
     with_portfolios with_holdings with_transactions
     fst snd negb stocks portfolios holdings transactions snapshots
     Portfolio.pk Portfolio.user Portfolio.balance Portfolio.created_at
     StockHolding.portfolio StockHolding.stock StockHolding.quantity
     Transaction.user Transaction.stock Transaction.transaction_type
     Transaction.quantity Transaction.price Transaction.timestamp].
  rewrite Z.geb_leb.
  destruct (Z.ltb_spec b (Stock.current_price stock * quantity)),
    (Z.leb_spec (Stock.current_price stock * quantity) b);
    try lia; [reflexivity|].
  cbv beta iota.
  destruct (ho !! (k, Stock.pk stock)) as [h|] eqn:Hh; cbv beta iota.
  - destruct (h + quantity <? 0); [|reflexivity].
    rewrite (insert_id ho) by exact Hh. reflexivity.
  - change (0 <? 0) with false. cbv beta iota.
    replace (0 + quantity) with quantity by lia.
    destruct (quantity <? 0); [reflexivity|].
    rewrite insert_insert_eq. reflexivity.
Qed.

(** A buy that the balance covers returns normally exactly when the
    holding does not end up negative; with a quantity that is not negative
    and holdings that are not, it always does. *)
Lemma buy_stock_succeeds now p stock quantity db :
  Stock.current_price stock * quantity ≤ Portfolio.balance p →
  0 ≤ held db (Portfolio.pk p) (Stock.pk stock) + quantity →
  fst (Portfolio_buy_stock now stock quantity (p, db)) = Ok tt.
Proof.
  intros Hcost Hheld. rewrite buy_stock_run.
  destruct (Z.ltb_spec (Portfolio.balance p) (Stock.current_price stock * quantity)); [lia|].
  destruct (Z.ltb_spec (held db (Portfolio.pk p) (Stock.pk stock) + quantity) 0); [lia|].
  reflexivity.
Qed.

(** Inversion of a normal return. *)
Lemma buy_stock_Ok_inv now p stock quantity db p' db' :
  Portfolio_buy_stock now stock quantity (p, db) = (Ok tt, (p', db')) →
  let total_cost := Stock.current_price stock * quantity in
  total_cost ≤ Portfolio.balance p
  ∧ 0 ≤ held db (Portfolio.pk p) (Stock.pk stock) + quantity
  ∧ p' = Portfolio_set_balance (Portfolio.balance p - total_cost) p
  ∧ db' = mkDatabase (stocks db) (<[Portfolio.pk p := p']> (portfolios db))
            (<[(Portfolio.pk p, Stock.pk stock) :=
                 held db (Portfolio.pk p) (Stock.pk stock) + quantity]> (holdings db))
            (transactions db ++
               [Transaction.mk (Portfolio.user p) (Stock.pk stock) BUY quantity
                  (Stock.current_price stock) now (Some total_cost)])
            (snapshots db).
Proof.
  rewrite buy_stock_run. intros Hrun total_cost. subst total_cost.
  destruct (Z.ltb_spec (Portfolio.balance p) (Stock.current_price stock * quantity));
    [discriminate|].
  destruct (Z.ltb_spec (held db (Portfolio.pk p) (Stock.pk stock) + quantity) 0);
    [discriminate|].
  injection Hrun as <- <-. auto.
Qed.

(** ** The buy operation *)

(** C1. When the balance covers price times quantity, a buy that returns
    leaves the balance, in memory and in the portfolio's row, at the old
    balance minus price times quantity; the holding of the (portfolio,
    stock) pair at what was held, zero when there was no row, plus the
    quantity; and the transaction log longer by exactly one transaction,
    of type BUY, with the price of the stock instance the call was given
    and a total amount of that price times the quantity. *)
Theorem buy_stock_success now p stock quantity db p' db' :
  Portfolio.balance p >= Stock.current_price stock * quantity →
  Portfolio_buy_stock now stock quantity (p, db) = (Ok tt, (p', db')) →
  Portfolio.balance p' = Portfolio.balance p - Stock.current_price stock * quantity
  ∧ portfolios db' !! Portfolio.pk p = Some p'
  ∧ held db' (Portfolio.pk p) (Stock.pk stock) =
      held db (Portfolio.pk p) (Stock.pk stock) + quantity
  ∧ (holdings db !! (Portfolio.pk p, Stock.pk stock) = None →
     holdings db' !! (Portfolio.pk p, Stock.pk stock) = Some (0 + quantity))
  ∧ ∃ t, transactions db' = transactions db ++ [t]
         ∧ Transaction.transaction_type t = BUY
         ∧ Transaction.user t = Portfolio.user p
         ∧ Transaction.stock t = Stock.pk stock
         ∧ Transaction.quantity t = quantity
         ∧ Transaction.price t = Stock.current_price stock
         ∧ Transaction.total_amount t = Some (Stock.current_price stock * quantity).
Proof.
  intros _ Hrun. apply buy_stock_Ok_inv in Hrun as (_ & _ & -> & ->).
  cbn [portfolios holdings transactions Portfolio_set_balance Portfolio.balance].
  split; [reflexivity|]. split; [apply lookup_insert_eq|].
  split; [unfold held at 1; cbn [holdings]; rewrite lookup_insert_eq; reflexivity|].
  split.
  - intros Hnone. rewrite lookup_insert_eq. unfold held. rewrite Hnone. reflexivity.
  - eexists. split; [reflexivity|]. cbn. auto 10.
Qed.

Lemma buy_stock_success_witness :
  Portfolio.balance test_portfolio >= Stock.current_price test_stock * 2
  ∧ ∃ p' db',
      Portfolio_buy_stock 5 test_stock 2 (test_portfolio, test_db) = (Ok tt, (p', db'))
      ∧ Portfolio.balance p' = 70000
      ∧ held db' 1 1 = 2
      ∧ ∃ t, transactions db' = [t] ∧ Transaction.total_amount t = Some 30000.
Proof.
  split; [vm_compute; discriminate|].
  eexists _, _. split; [vm_compute; reflexivity|].
  destruct (buy_stock_success 5 test_portfolio test_stock 2 test_db _ _
              ltac:(vm_compute; discriminate) eq_refl)
    as (Hb & _ & Hh & _ & t & Ht & _ & _ & _ & _ & _ & Hta).
  split; [exact Hb|]. split; [exact Hh|].
  exists t. split; [exact Ht | exact Hta].
Defined.

(** C2. When the balance is below price times quantity, the buy raises the
    insufficient-funds error and leaves the portfolio instance and the
    whole database, so the balance, every holding and the transaction log,
    as they were. *)
Theorem buy_stock_insufficient_funds now p stock quantity db :
  Portfolio.balance p < Stock.current_price stock * quantity →
  Portfolio_buy_stock now stock quantity (p, db) = (Raise InsufficientFunds, (p, db)).
Proof.
  intros Hlt. rewrite buy_stock_run.
  destruct (Z.ltb_spec (Portfolio.balance p) (Stock.current_price stock * quantity));
    [reflexivity | lia].
Qed.

Lemma buy_stock_insufficient_funds_witness :
  Portfolio.balance test_portfolio < Stock.current_price test_stock * 10
  ∧ Portfolio_buy_stock 5 test_stock 10 (test_portfolio, test_db) =
      (Raise InsufficientFunds, (test_portfolio, test_db)).
Proof.
  split; [reflexivity|].
  apply (buy_stock_insufficient_funds 5 test_portfolio test_stock 10 test_db).
  reflexivity.
Defined.

(** C10. A buy that returns writes the portfolio's row, where it stores
    the instance with the new balance and its other fields as they were,
    the holding of the (portfolio, stock) pair, and one transaction at the
    end of the log.  The stock table, the rows of other portfolios, the
    holdings of other pairs, the transactions already in the log and the
    snapshots stay as they were. *)
Theorem buy_stock_frame now p stock quantity db p' db' :
  Portfolio_buy_stock now stock quantity (p, db) = (Ok tt, (p', db')) →
  stocks db' = stocks db
  ∧ (Portfolio.pk p' = Portfolio.pk p ∧ Portfolio.user p' = Portfolio.user p
     ∧ Portfolio.created_at p' = Portfolio.created_at p)
  ∧ portfolios db' = <[Portfolio.pk p := p']> (portfolios db)
  ∧ (∀ k, k ≠ Portfolio.pk p → portfolios db' !! k = portfolios db !! k)
  ∧ (∀ key, key ≠ (Portfolio.pk p, Stock.pk stock) →
       holdings db' !! key = holdings db !! key)
  ∧ (∃ t, transactions db' = transactions db ++ [t])
  ∧ snapshots db' = snapshots db.
Proof.
  intros Hrun. apply buy_stock_Ok_inv in Hrun as (_ & _ & -> & ->).
  cbn [stocks portfolios holdings transactions snapshots].
  repeat split; try reflexivity.
  - intros k Hk. apply lookup_insert_ne. congruence.
  - intros key Hkey. apply lookup_insert_ne. congruence.
  - eexists. reflexivity.
Qed.

Lemma buy_stock_frame_witness :
  ∃ p' db',
    Portfolio_buy_stock 5 test_stock 2 (test_portfolio, test_db) = (Ok tt, (p', db'))
    ∧ stocks db' = stocks test_db
    ∧ snapshots db' = snapshots test_db.
Proof.
  eexists _, _. split; [vm_compute; reflexivity|].
  destruct (buy_stock_frame 5 test_portfolio test_stock 2 test_db _ _ eq_refl)
    as (Hs & _ & _ & _ & _ & _ & Hsn).
  split; [exact Hs | exact Hsn].
Defined.

(** A buy of a quantity that is not negative, into holdings that are not
    negative, is all or nothing: it raises the insufficient-funds error
    with nothing written, or it returns with the balance, the holding and
    the transaction log all written. *)
Lemma buy_stock_all_or_nothing_nonneg now p stock quantity db :
  0 ≤ quantity →
  0 ≤ held db (Portfolio.pk p) (Stock.pk stock) →
  let r := Portfolio_buy_stock now stock quantity (p, db) in
  r = (Raise InsufficientFunds, (p, db))
  ∨ (fst r = Ok tt
     ∧ Portfolio.balance <$> portfolios (db_after r) !! Portfolio.pk p =
         Some (Portfolio.balance p - Stock.current_price stock * quantity)
     ∧ held (db_after r) (Portfolio.pk p) (Stock.pk stock) =
         held db (Portfolio.pk p) (Stock.pk stock) + quantity
     ∧ length (transactions (db_after r)) = S (length (transactions db))).
Proof.
  intros Hq Hheld r. subst r. rewrite buy_stock_run.
  destruct (Z.ltb_spec (Portfolio.balance p) (Stock.current_price stock * quantity));
    [left; reflexivity|].
  destruct (Z.ltb_spec (held db (Portfolio.pk p) (Stock.pk stock) + quantity) 0); [lia|].
  right. unfold db_after, held. cbn [fst snd portfolios holdings transactions].
  rewrite !lookup_insert_eq, length_app. cbn. repeat split; lia.
Qed.

(** A buy of a negative quantity larger than what is held passes the
    affordability check when the balance is not negative, writes the
    increased balance, and then raises from [StockHolding.save]: the
    balance is written and no transaction is. *)
Lemma buy_stock_partial_write now p stock quantity db :
  Stock.current_price stock * quantity ≤ Portfolio.balance p →
  held db (Portfolio.pk p) (Stock.pk stock) + quantity < 0 →
  let r := Portfolio_buy_stock now stock quantity (p, db) in
  fst r = Raise InvalidHolding
  ∧ Portfolio.balance <$> portfolios (db_after r) !! Portfolio.pk p =
      Some (Portfolio.balance p - Stock.current_price stock * quantity)
  ∧ transactions (db_after r) = transactions db.
Proof.
  intros Hcost Hneg r. subst r. rewrite buy_stock_run.
  destruct (Z.ltb_spec (Portfolio.balance p) (Stock.current_price stock * quantity)); [lia|].
  destruct (Z.ltb_spec (held db (Portfolio.pk p) (Stock.pk stock) + quantity) 0); [|lia].
  unfold db_after. cbn [fst snd portfolios transactions].
  rewrite lookup_insert_eq. auto.
Qed.

(** C3. The buy is not all or nothing on every failure.  On the fixture
    (balance 1000.00, AAPL at 150.00, nothing held) a buy of -1 shares
    raises the negative-quantity error of [StockHolding.save] after the
    balance has been written as 1150.00 and a holding row of quantity 0
    has been created, and with no transaction recorded. *)
Theorem buy_stock_negative_quantity_not_atomic :
  let r := Portfolio_buy_stock 5 test_stock (-1) (test_portfolio, test_db) in
  fst r = Raise InvalidHolding
  ∧ Portfolio.balance (fst (snd r)) = 115000
  ∧ Portfolio.balance <$> portfolios test_db !! 1 = Some 100000
  ∧ Portfolio.balance <$> portfolios (db_after r) !! 1 = Some 115000
  ∧ holdings test_db !! (1, 1) = None
  ∧ holdings (db_after r) !! (1, 1) = Some 0
  ∧ transactions (db_after r) = transactions test_db.
Proof. vm_compute. repeat split; reflexivity. Qed.

(** ** Stock writes *)

Lemma Stock_save_run s db :
  let s' := Stock_set_symbol (upper (Stock.symbol s)) s in
  Stock_save (s, db) =
    if Stock.current_price s <=? 0 then (Raise InvalidStock, (s', db))
    else (Ok tt, (s', with_stocks (insert (Stock.pk s) s') db)).
Proof.
  destruct s as [k sy na pr lu]. cbn.
  unfold Stock_save, Stock_clean, bind, self, set_self, execute. cbn.
  destruct (pr <=? 0); reflexivity.
Qed.

Lemma Stock_objects_create_run now symbol name current_price db :
  let k := fresh (dom (stocks db)) in
  let s := Stock.mk k (upper symbol) name current_price now in
  Stock_objects_create now symbol name current_price (tt, db) =
    if current_price <=? 0 then (Raise InvalidStock, (tt, db))
    else (Ok s, (tt, with_stocks (insert k s) db)).
Proof.
  cbn. unfold Stock_objects_create, bind, query, invoke. cbn [fst snd].
  rewrite Stock_save_run. cbn.
  destruct (current_price <=? 0); reflexivity.
Qed.

Lemma upper_ascii_idempotent c : upper_ascii (upper_ascii c) = upper_ascii c.
Proof. destruct c as [[] [] [] [] [] [] [] []]; reflexivity. Qed.

Lemma upper_idempotent s : upper (upper s) = upper s.
Proof. induction s as [|c s IH]; cbn; [reflexivity|]. by rewrite upper_ascii_idempotent, IH. Qed.

Lemma upper_length s : String.length (upper s) = String.length s.
Proof. induction s as [|c s IH]; cbn; [reflexivity|]. by rewrite IH. Qed.

(** Upper-casing leaves no lower-case letter behind. *)
Lemma upper_ascii_not_lower c :
  let n := nat_of_ascii (upper_ascii c) in ((97 <=? n) && (n <=? 122))%nat = false.
Proof. destruct c as [[] [] [] [] [] [] [] []]; reflexivity. Qed.

(** C7. A Stock write that goes through stores, under the instance's key,
    a row whose symbol is the upper-cased form of the symbol given and
    whose other fields are the ones given; so does creating a Stock, under
    a key that was not in use.  Upper-casing "googl" gives "GOOGL". *)
Theorem stock_write_upper_cases_symbol :
  (∀ s db s' db',
     Stock_save (s, db) = (Ok tt, (s', db')) →
     stocks db' !! Stock.pk s = Some s'
     ∧ s' = Stock.mk (Stock.pk s) (upper (Stock.symbol s)) (Stock.name s)
              (Stock.current_price s) (Stock.last_updated s))
  ∧ (∀ now symbol name current_price db s' db',
       Stock_objects_create now symbol name current_price (tt, db) = (Ok s', (tt, db')) →
       stocks db !! Stock.pk s' = None
       ∧ stocks db' !! Stock.pk s' = Some s'
       ∧ Stock.symbol s' = upper symbol)
  ∧ upper "googl" = "GOOGL".
Proof.
  split; [|split; [|reflexivity]].
  - intros s db s' db'. rewrite Stock_save_run.
    destruct (Stock.current_price s <=? 0); [discriminate|].
    intros [= <- <-]. cbn. by rewrite lookup_insert_eq.
  - intros now symbol name current_price db s' db'. rewrite Stock_objects_create_run.
    destruct (current_price <=? 0); [discriminate|].
    intros [= <- <-]. cbn. rewrite lookup_insert_eq.
    split; [|done]. apply not_elem_of_dom, is_fresh.
Qed.

Lemma stock_write_upper_cases_symbol_witness :
  ∃ s' db',
    Stock_objects_create 0 "googl" "Google" 10000 (tt, empty_db) = (Ok s', (tt, db'))
    ∧ stocks db' !! Stock.pk s' = Some s'
    ∧ Stock.symbol s' = "GOOGL".
Proof.
  eexists _, _. split; [vm_compute; reflexivity|].
  destruct stock_write_upper_cases_symbol as (_ & Hcreate & _).
  destruct (Hcreate 0 "googl" "Google" 10000 empty_db _ _ eq_refl) as (_ & Hrow & Hsym).
  split; [exact Hrow | exact Hsym].
Defined.

(** C8. A Stock write with a price that is zero or negative raises the
    invalid-stock error and leaves the database as it was, so no row is
    stored; creating a Stock with such a price does the same.  A write
    with a positive price returns normally. *)
Theorem stock_write_rejects_non_positive_price :
  (∀ s db, Stock.current_price s ≤ 0 →
     fst (Stock_save (s, db)) = Raise InvalidStock ∧ db_after (Stock_save (s, db)) = db)
  ∧ (∀ now symbol name current_price db, current_price ≤ 0 →
       Stock_objects_create now symbol name current_price (tt, db) =
         (Raise InvalidStock, (tt, db)))
  ∧ (∀ s db, 0 < Stock.current_price s → fst (Stock_save (s, db)) = Ok tt)
  ∧ (∀ now symbol name current_price db, 0 < current_price →
       ∃ s', fst (Stock_objects_create now symbol name current_price (tt, db)) = Ok s').
Proof.
  repeat split.
  - rewrite Stock_save_run. destruct (Z.leb_spec (Stock.current_price s) 0); [done | lia].
  - rewrite Stock_save_run. destruct (Z.leb_spec (Stock.current_price s) 0); [done | lia].
  - intros now symbol name current_price db Hp. rewrite Stock_objects_create_run.
    destruct (Z.leb_spec current_price 0); [done | lia].
  - intros s db Hp. rewrite Stock_save_run.
    destruct (Z.leb_spec (Stock.current_price s) 0); [lia | done].
  - intros now symbol name current_price db Hp. rewrite Stock_objects_create_run.
    destruct (Z.leb_spec current_price 0); [lia | eauto].
Qed.

Lemma stock_write_rejects_non_positive_price_witness :
  Stock_objects_create 0 "MSFT" "Microsoft" (-5000) (tt, empty_db) =
    (Raise InvalidStock, (tt, empty_db))
  ∧ fst (Stock_save (test_stock, empty_db)) = Ok tt.
Proof.
  destruct stock_write_rejects_non_positive_price as (_ & Hcreate & Hsave & _).
  split.
  - apply (Hcreate 0 "MSFT" "Microsoft" (-5000) empty_db). vm_compute. discriminate.
  - apply (Hsave test_stock empty_db). reflexivity.
Defined.

(** ** Valuation *)

(** The rows [self.holdings.all()] yields are the rows of the portfolio. *)
Lemma elem_of_holdings_all portfolio db h :
  h ∈ holdings_all portfolio db ↔
  StockHolding.portfolio h = portfolio
  ∧ holdings db !! (portfolio, StockHolding.stock h) = Some (StockHolding.quantity h).
Proof.
  unfold holdings_all, holdings_rows. rewrite list_elem_of_filter, list_elem_of_fmap. split.
  - intros [Hp ([[a b] q] & -> & Hin)]. cbn in *. subst a.
    by apply elem_of_map_to_list in Hin.
  - intros [Hp Hlook]. split; [exact Hp|].
    exists ((portfolio, StockHolding.stock h), StockHolding.quantity h). split.
    + destruct h; cbn in *. by subst.
    + by apply elem_of_map_to_list.
Qed.

Lemma holdings_all_nil portfolio db :
  (∀ s, holdings db !! (portfolio, s) = None) → holdings_all portfolio db = [].
Proof.
  intros Hnone. apply elem_of_nil_inv. intros h [_ Hlook]%elem_of_holdings_all.
  by rewrite Hnone in Hlook.
Qed.

Section Sum.
Context {T : Type} (this : T) (db : Database).

Let priced (h : StockHolding.t) : Prop := is_Some (stocks db !! StockHolding.stock h).

Lemma sum_holdings_state acc l : snd (sum_holdings acc l (this, db)) = (this, db).
Proof.
  revert acc. induction l as [|h l IH]; intros acc; [reflexivity|].
  cbn. unfold bind, StockHolding_get_stock, query, bind. cbn.
  destruct (stocks db !! StockHolding.stock h); cbn; [apply IH | reflexivity].
Qed.

Lemma sum_holdings_priced acc l :
  Forall priced l →
  fst (sum_holdings acc l (this, db)) = Ok (acc + spec_holdings_value db l).
Proof.
  revert acc. induction l as [|h l IH]; intros acc Hall.
  - cbn. f_equal. lia.
  - apply Forall_cons in Hall as [[s Hs] Hall].
    change (spec_holdings_value db (h :: l)) with
      (StockHolding.quantity h * stock_price db (StockHolding.stock h)
       + spec_holdings_value db l).
    cbn [sum_holdings]. unfold bind at 1, StockHolding_get_stock, query, bind.
    cbn [fst snd]. unfold stock_price. rewrite Hs. cbn [ret from_option].
    rewrite IH by exact Hall. f_equal. ring.
Qed.

Lemma sum_holdings_unpriced acc l :
  ¬ Forall priced l → fst (sum_holdings acc l (this, db)) = Raise DoesNotExist.
Proof.
  revert acc. induction l as [|h l IH]; intros acc Hnot.
  - destruct Hnot. constructor.
  - cbn. unfold bind at 1, StockHolding_get_stock, query, bind. cbn.
    destruct (stocks db !! StockHolding.stock h) as [s|] eqn:Hs; cbn; [|reflexivity].
    apply IH. intros Hall. apply Hnot. constructor; [by exists s | exact Hall].
Qed.

Lemma spec_holdings_value_permutation l l' :
  l ≡ₚ l' → spec_holdings_value db l = spec_holdings_value db l'.
Proof.
  unfold spec_holdings_value.
  induction 1 as [|h l l' _ IH|h h' l|l l' l'' _ IH1 _ IH2]; cbn [foldr].
  - reflexivity.
  - by rewrite IH.
  - ring.
  - by rewrite IH1.
Qed.

Lemma sum_holdings_permutation acc l l' :
  l ≡ₚ l' → sum_holdings acc l (this, db) = sum_holdings acc l' (this, db).
Proof.
  intros Hperm.
  rewrite (surjective_pairing (sum_holdings acc l (this, db))).
  rewrite (surjective_pairing (sum_holdings acc l' (this, db))).
  rewrite !sum_holdings_state. f_equal.
  destruct (decide (Forall priced l)) as [Hall|Hnot].
  - rewrite !sum_holdings_priced; [|by rewrite <- Hperm|done].
    by rewrite (spec_holdings_value_permutation l l').
  - rewrite !sum_holdings_unpriced; [done|by rewrite <- Hperm|done].
Qed.
End Sum.

Lemma calculate_total_value_run p db :
  Portfolio_calculate_total_value (p, db) =
    match fst (sum_holdings 0 (holdings_all (Portfolio.pk p) db) (p, db)) with
    | Ok v => (Ok (Portfolio.balance p + v), (p, db))
    | Raise e => (Raise e, (p, db))
    end.
Proof.
  unfold Portfolio_calculate_total_value, bind, self, query. cbn [fst snd].
  pose proof (sum_holdings_state p db 0 (holdings_all (Portfolio.pk p) db)) as Hst.
  destruct (sum_holdings 0 (holdings_all (Portfolio.pk p) db) (p, db)) as [[v|e] st].
  - cbn in *. by subst st.
  - cbn in *. by subst st.
Qed.

(** [self.holdings.all()] yields no row twice. *)
Lemma holdings_all_NoDup portfolio db : NoDup (holdings_all portfolio db).
Proof.
  unfold holdings_all, holdings_rows. apply NoDup_filter, NoDup_fmap_2_strong.
  - intros [[a b] q] [[a' b'] q'] _ _ [= -> -> ->]. reflexivity.
  - apply NoDup_map_to_list.
Qed.

(** Every list that holds each holding row of the portfolio once, and
    nothing else, is a rearrangement of what [self.holdings.all()] yields. *)
Lemma holdings_all_enumeration portfolio db l :
  NoDup l →
  (∀ h, h ∈ l ↔
        StockHolding.portfolio h = portfolio
        ∧ holdings db !! (StockHolding.portfolio h, StockHolding.stock h) =
            Some (StockHolding.quantity h)) →
  holdings_all portfolio db ≡ₚ l.
Proof.
  intros Hnodup Hrows. apply NoDup_Permutation; [apply holdings_all_NoDup | exact Hnodup |].
  intros h. rewrite elem_of_holdings_all, Hrows. split; intros [Hp Hq]; split; congruence.
Qed.

(** C5. Computing the total value leaves the portfolio instance and the
    database as they were.  For every list that holds each holding row of
    the portfolio once and no other row, when each of these holdings refers
    to a stock of the stock table, the result is the cash balance plus the
    sum over that list of quantity times the stock's current price: the
    holdings of other portfolios do not count, and none of the portfolio
    counts twice.  Summing holdings in any other order gives the same
    outcome. *)
Theorem calculate_total_value_spec p db :
  snd (Portfolio_calculate_total_value (p, db)) = (p, db)
  ∧ (∀ l,
       NoDup l →
       (∀ h, h ∈ l ↔
             StockHolding.portfolio h = Portfolio.pk p
             ∧ holdings db !! (StockHolding.portfolio h, StockHolding.stock h) =
                 Some (StockHolding.quantity h)) →
       (∀ h, h ∈ l → is_Some (stocks db !! StockHolding.stock h)) →
       fst (Portfolio_calculate_total_value (p, db)) =
         Ok (Portfolio.balance p + spec_holdings_value db l))
  ∧ (∀ l l', l ≡ₚ l' →
       (v <~ sum_holdings 0 l ;; ret (Portfolio.balance p + v)) (p, db) =
       (v <~ sum_holdings 0 l' ;; ret (Portfolio.balance p + v)) (p, db))
  ∧ (∀ l l', l ≡ₚ l' → spec_holdings_value db l = spec_holdings_value db l').
Proof.
  rewrite calculate_total_value_run. repeat split.
  - by destruct (fst (sum_holdings 0 _ (p, db))).
  - intros l Hnodup Hrows Hpriced.
    rewrite (sum_holdings_permutation p db 0 _ l
               (holdings_all_enumeration _ db l Hnodup Hrows)).
    rewrite sum_holdings_priced; [by rewrite Z.add_0_l|]. by apply Forall_forall.
  - intros l l' Hperm. unfold bind. by rewrite (sum_holdings_permutation p db 0 l l').
  - apply spec_holdings_value_permutation.
Qed.

Lemma calculate_total_value_spec_witness :
  fst (Portfolio_calculate_total_value (test_portfolio, two_portfolios_db)) =
    Ok (100000 + (5 * 15000 + (3 * 30000 + 0)))
  ∧ sum_holdings 0 [StockHolding.mk 1 1 5; StockHolding.mk 1 2 3]
      (test_portfolio, two_portfolios_db) =
    sum_holdings 0 [StockHolding.mk 1 2 3; StockHolding.mk 1 1 5]
      (test_portfolio, two_portfolios_db).
Proof.
  destruct (calculate_total_value_spec test_portfolio two_portfolios_db)
    as (_ & Hval & _ & _).
  split; [|vm_compute; reflexivity].
  apply (Hval [StockHolding.mk 1 1 5; StockHolding.mk 1 2 3]).
  - apply NoDup_cons. split; [|apply NoDup_singleton].
    intros Hin. apply list_elem_of_singleton in Hin. discriminate.
  - intros [a b q]. rewrite !elem_of_cons, elem_of_nil.
    cbn [StockHolding.portfolio StockHolding.stock StockHolding.quantity
         Portfolio.pk test_portfolio two_portfolios_db holdings].
    rewrite !lookup_insert_Some, lookup_singleton_Some. split.
    + intros [[= -> -> ->] | [[= -> -> ->] | []]]; split; auto.
    + intros [-> [[[= <-] <-] | [_ [[[= <-] <-] | [_ [[=] _]]]]]]; auto.
  - intros h. rewrite !elem_of_cons, elem_of_nil.
    intros [-> | [-> | []]]; eexists; vm_compute; reflexivity.
Defined.

(** ** Snapshots *)

Lemma create_daily_snapshot_run now p db :
  Portfolio_create_daily_snapshot now (p, db) =
    match fst (Portfolio_calculate_total_value (p, db)) with
    | Ok v =>
        let snapshot := PortfolioSnapshot.mk (Portfolio.pk p) v (Portfolio.balance p) now in
        (Ok snapshot, (p, with_snapshots (λ l, l ++ [snapshot]) db))
    | Raise e => (Raise e, (p, db))
    end.
Proof.
  unfold Portfolio_create_daily_snapshot, bind at 1, self. cbn [fst snd].
  unfold bind at 1. rewrite calculate_total_value_run.
  by destruct (fst (sum_holdings 0 _ (p, db))).
Qed.

(** C9. Taking a snapshot never changes the portfolio instance, the
    portfolio table or a snapshot already stored: it at most appends one
    snapshot.  For a portfolio without holdings it returns and appends a
    snapshot whose total value and cash balance both equal the
    portfolio's balance. *)
Theorem create_daily_snapshot_no_holdings now p db :
  (let r := Portfolio_create_daily_snapshot now (p, db) in
   fst (snd r) = p
   ∧ portfolios (db_after r) = portfolios db
   ∧ ∃ new, snapshots (db_after r) = snapshots db ++ new ∧ (length new ≤ 1)%nat)
  ∧ ((∀ s, holdings db !! (Portfolio.pk p, s) = None) →
     let snapshot :=
       PortfolioSnapshot.mk (Portfolio.pk p) (Portfolio.balance p) (Portfolio.balance p) now in
     Portfolio_create_daily_snapshot now (p, db) =
       (Ok snapshot, (p, with_snapshots (λ l, l ++ [snapshot]) db))
     ∧ PortfolioSnapshot.total_value snapshot = Portfolio.balance p
     ∧ PortfolioSnapshot.cash_balance snapshot = Portfolio.balance p).
Proof.
  rewrite create_daily_snapshot_run. split.
  - destruct (fst (Portfolio_calculate_total_value (p, db))); cbn.
    + repeat split. eexists. split; [reflexivity | cbn; lia].
    + repeat split. exists []. split; [by rewrite app_nil_r | cbn; lia].
  - intros Hnone. rewrite calculate_total_value_run, holdings_all_nil by exact Hnone.
    cbn. by rewrite Z.add_0_r.
Qed.

Lemma create_daily_snapshot_no_holdings_witness :
  Portfolio_create_daily_snapshot 9 (test_portfolio, test_db) =
    (Ok (PortfolioSnapshot.mk 1 100000 100000 9),
     (test_portfolio,
      with_snapshots (λ l, l ++ [PortfolioSnapshot.mk 1 100000 100000 9]) test_db)).
Proof.
  destruct (create_daily_snapshot_no_holdings 9 test_portfolio test_db) as [_ Hsnap].
  apply Hsnap. intros s. reflexivity.
Defined.

(** ** Holdings never go negative *)

Lemma StockHolding_save_run h db :
  StockHolding_save (h, db) =
    if StockHolding.quantity h <? 0 then (Raise InvalidHolding, (h, db))
    else (Ok tt, (h, with_holdings
                       (insert (StockHolding.portfolio h, StockHolding.stock h)
                          (StockHolding.quantity h)) db)).
Proof.
  unfold StockHolding_save, StockHolding_clean, bind, self, execute. cbn [fst snd].
  by destruct (StockHolding.quantity h <? 0).
Qed.

Lemma get_or_create_run {T} (this : T) portfolio stock quantity db :
  StockHolding_objects_get_or_create portfolio stock quantity (this, db) =
    match holdings db !! (portfolio, stock) with
    | Some held => (Ok (StockHolding.mk portfolio stock held, false), (this, db))
    | None =>
        if quantity <? 0 then (Raise InvalidHolding, (this, db))
        else (Ok (StockHolding.mk portfolio stock quantity, true),
              (this, with_holdings (insert (portfolio, stock) quantity) db))
    end.
Proof.
  unfold StockHolding_objects_get_or_create, bind, query, invoke. cbn [fst snd].
  destruct (holdings db !! (portfolio, stock)); [reflexivity|].
  rewrite StockHolding_save_run. cbn. by destruct (quantity <? 0).
Qed.

Lemma holdings_nonneg_insert db portfolio stock q :
  holdings_nonneg db → 0 ≤ q →
  holdings_nonneg (with_holdings (insert (portfolio, stock) q) db).
Proof.
  intros Hdb Hq portfolio' stock' q'. cbn.
  destruct (decide ((portfolio, stock) = (portfolio', stock'))) as [->|Hne].
  - rewrite lookup_insert_eq. by intros [= <-].
  - rewrite lookup_insert_ne by done. apply Hdb.
Qed.

Lemma held_nonneg db portfolio stock : holdings_nonneg db → 0 ≤ held db portfolio stock.
Proof.
  intros Hdb. unfold held.
  destruct (holdings db !! (portfolio, stock)) as [q|] eqn:Hq; cbn; [by eapply Hdb | lia].
Qed.

Lemma buy_stock_holdings_nonneg now p stock quantity db :
  holdings_nonneg db →
  holdings_nonneg (db_after (Portfolio_buy_stock now stock quantity (p, db))).
Proof.
  intros Hdb. rewrite buy_stock_run.
  destruct (Portfolio.balance p <? _); [exact Hdb|].
  destruct (Z.ltb_spec (held db (Portfolio.pk p) (Stock.pk stock) + quantity) 0).
  - apply (holdings_nonneg_insert
             (mkDatabase (stocks db) _ (holdings db) (transactions db) (snapshots db)));
      [exact Hdb | by apply held_nonneg].
  - apply (holdings_nonneg_insert
             (mkDatabase (stocks db) _ (holdings db) _ (snapshots db)));
      [exact Hdb | done].
Qed.

(** What the buy endpoint does to the database is what the one call of
    [buy_stock] it may make does. *)
Lemma view_buy_stock_db_after now request db :
  db_after (PortfolioViewSet_buy_stock now request (tt, db)) = db
  ∨ ∃ p stock quantity,
      db_after (PortfolioViewSet_buy_stock now request (tt, db)) =
      db_after (Portfolio_buy_stock now stock quantity (p, db)).
Proof.
  destruct request as [u sym qv].
  cbv beta iota zeta delta
    [PortfolioViewSet_buy_stock try_except_ValueError_TypeError bind python_int
     value_upper get_object_or_404_Stock get_queryset_first query invoke
     Portfolio_can_buy_stock self ret raise db_after
     data_quantity data_symbol request_user].
  cbn [fst snd].
  destruct qv as [|s|q]; [by left | destruct (int_of_str s) as [q|]; [|by left] | ].
  all: destruct sym as [|sy|]; cbn [fst snd]; try (by left).
  all: destruct (filter (λ s0, Stock.symbol s0 = upper sy) (snd <$> map_to_list (stocks db)))
         as [|stock [|]]; cbn [fst snd]; try (by left).
  all: destruct (first_by_pk _) as [p|]; cbn [fst snd]; try (by left).
  all: destruct (Portfolio.balance p >=? _); cbn [fst snd]; try (by left).
  all: right; exists p, stock, q; rewrite buy_stock_run.
  all: destruct (_ <? _); [|destruct (_ <? _)]; reflexivity.
Qed.

Lemma run_holdings_nonneg op db : holdings_nonneg db → holdings_nonneg (run op db).
Proof.
  intros Hdb. destruct op as [s|now sy na pr|p|now u b|h|po st q|now u st ty q pr
                              |now p st q|now p|now request]; cbn [run].
  - rewrite Stock_save_run. by destruct (_ <=? _).
  - rewrite Stock_objects_create_run. by destruct (_ <=? _).
  - exact Hdb.
  - exact Hdb.
  - rewrite StockHolding_save_run.
    destruct (Z.ltb_spec (StockHolding.quantity h) 0); [exact Hdb|].
    by apply holdings_nonneg_insert.
  - rewrite get_or_create_run. destruct (holdings db !! (po, st)); [exact Hdb|].
    destruct (Z.ltb_spec q 0); [exact Hdb|]. by apply holdings_nonneg_insert.
  - exact Hdb.
  - by apply buy_stock_holdings_nonneg.
  - rewrite create_daily_snapshot_run. by destruct (fst _).
  - destruct (view_buy_stock_db_after now request db) as [->|(p & st & q & ->)];
      [exact Hdb | by apply buy_stock_holdings_nonneg].
Qed.

Lemma reachable_holdings_nonneg db : reachable db → holdings_nonneg db.
Proof.
  induction 1 as [|op db _ IH].
  - intros portfolio stock q Hq. cbn in Hq. by rewrite lookup_empty in Hq.
  - by apply run_holdings_nonneg.
Qed.

(** C6. In every database the application can reach, every holding has a
    quantity that is not negative; and saving a holding instance whose
    quantity is negative raises the invalid-holding error and leaves the
    database, so the stored quantity, as it was. *)
Theorem holding_quantity_never_negative :
  (∀ db, reachable db →
     ∀ portfolio stock q, holdings db !! (portfolio, stock) = Some q → 0 ≤ q)
  ∧ (∀ h db, StockHolding.quantity h < 0 →
       StockHolding_save (h, db) = (Raise InvalidHolding, (h, db))).
Proof.
  split.
  - intros db Hreach. by apply reachable_holdings_nonneg.
  - intros h db Hneg. rewrite StockHolding_save_run.
    destruct (Z.ltb_spec (StockHolding.quantity h) 0); [done | lia].
Qed.

Lemma reachable_foldl ops db : reachable db → reachable (foldl (λ d op, run op d) db ops).
Proof.
  revert db. induction ops as [|op ops IH]; intros db Hdb; [exact Hdb|].
  cbn. apply IH. by constructor.
Defined.

Lemma holding_quantity_never_negative_witness :
  let db := foldl (λ d op, run op d) empty_db
              (fixture_operations ++ [OpBuyStock 5 test_portfolio test_stock 2;
                                      OpBuyStock 6 test_portfolio test_stock (-5)]) in
  holdings db !! (1, 1) = Some 2
  ∧ 0 ≤ 2
  ∧ StockHolding_save (StockHolding.mk 1 1 (-3), db) =
      (Raise InvalidHolding, (StockHolding.mk 1 1 (-3), db)).
Proof.
  intros db.
  destruct holding_quantity_never_negative as [Hinv Hsave].
  assert (Hlook : holdings db !! (1, 1) = Some 2) by (vm_compute; reflexivity).
  split; [exact Hlook|]. split.
  - apply (Hinv db (reachable_foldl _ _ reachable_empty) 1 1 2 Hlook).
  - apply (Hsave (StockHolding.mk 1 1 (-3)) db). reflexivity.
Defined.

(** ** The buy endpoint *)

Example int_of_str_examples :
  int_of_str "2" = Some 2 ∧ int_of_str " +1_000 " = Some 1000
  ∧ int_of_str "0" = Some 0 ∧ int_of_str "-1" = Some (-1)
  ∧ int_of_str "" = None ∧ int_of_str "abc" = None ∧ int_of_str "1.5" = None
  ∧ int_of_str "- 1" = None ∧ int_of_str "1__0" = None ∧ int_of_str "_1" = None.
Proof. vm_compute. repeat split; reflexivity. Qed.

(** A quantity that is missing or is a string [int] does not accept is
    answered with status 400 and "Invalid quantity provided"; nothing is
    looked up or written. *)
Lemma view_buy_stock_rejects_non_numeric now request db :
  data_quantity request = VNone
  ∨ (∃ s, data_quantity request = VStr s ∧ int_of_str s = None) →
  PortfolioViewSet_buy_stock now request (tt, db) =
    (Ok (mkResponse HTTP_400_BAD_REQUEST "error" "Invalid quantity provided"), (tt, db)).
Proof.
  intros Hq. unfold PortfolioViewSet_buy_stock, try_except_ValueError_TypeError, bind.
  destruct Hq as [-> | (s & -> & Hs)]; cbn; [reflexivity|]. by rewrite Hs.
Qed.

(** A quantity that is an integer, of any sign, reaches [buy_stock] as soon
    as the stock and the portfolio are found and the balance covers the
    cost; a cost that is zero or negative is covered by any balance that is
    not negative. *)
Lemma view_buy_stock_calls_buy_stock now request db sy q stock p :
  data_symbol request = VStr sy →
  data_quantity request = VInt q ∨ (∃ s, data_quantity request = VStr s ∧ int_of_str s = Some q) →
  filter (λ s, Stock.symbol s = upper sy) (snd <$> map_to_list (stocks db)) = [stock] →
  first_by_pk (filter (λ p, Portfolio.user p = request_user request)
                 (snd <$> map_to_list (portfolios db))) = Some p →
  Stock.current_price stock * q ≤ Portfolio.balance p →
  fst (PortfolioViewSet_buy_stock now request (tt, db)) =
    match fst (Portfolio_buy_stock now stock q (p, db)) with
    | Ok _ => Ok (mkResponse HTTP_200_OK "success"
                    ("Successfully purchased " +:+ pretty q +:+ " shares of " +:+ sy))
    | Raise e => Raise e
    end
  ∧ db_after (PortfolioViewSet_buy_stock now request (tt, db)) =
    db_after (Portfolio_buy_stock now stock q (p, db)).
Proof.
  intros Hsym Hq Hstock Hp Hcost. destruct request as [u sym qv]. cbn in Hsym, Hq, Hp.
  subst sym.
  assert (Hint : ∀ st : unit * Database, python_int qv st = (Ok q, st)).
  { intros st. destruct Hq as [-> | (s & -> & Hs)]; cbn; [reflexivity|]. by rewrite Hs. }
  cbv beta iota zeta delta
    [PortfolioViewSet_buy_stock try_except_ValueError_TypeError bind
     value_upper get_object_or_404_Stock get_queryset_first query invoke
     Portfolio_can_buy_stock self ret raise db_after format_value
     data_quantity data_symbol request_user].
  rewrite Hint. cbn [fst snd]. rewrite Hstock. cbn [fst snd]. rewrite Hp. cbn [fst snd].
  replace (Portfolio.balance p >=? Stock.current_price stock * q) with true
    by (symmetry; rewrite Z.geb_leb; by apply Z.leb_le).
  cbn [fst snd]. rewrite buy_stock_run.
  destruct (_ <? _); [|destruct (_ <? _)]; split; reflexivity.
Qed.

(** C4. The endpoint does not reject an integer quantity that is zero or
    negative.  On the fixture, a request for "0" shares of AAPL is answered
    with success after [buy_stock] has run with quantity 0 and recorded a
    transaction of 0 shares; a request for "-1" shares runs [buy_stock]
    with quantity -1, which writes a balance of 1150.00 and then raises. *)
Theorem view_buy_stock_non_positive_quantity_reaches_buy_stock :
  let zero := mkRequest 7 (VStr "AAPL") (VStr "0") in
  let minus_one := mkRequest 7 (VStr "AAPL") (VStr "-1") in
  PortfolioViewSet_buy_stock 5 zero (tt, test_db) =
    (Ok (mkResponse 200 "success" "Successfully purchased 0 shares of AAPL"),
     (tt, db_after (Portfolio_buy_stock 5 test_stock 0 (test_portfolio, test_db))))
  ∧ transactions (db_after (PortfolioViewSet_buy_stock 5 zero (tt, test_db))) =
      [Transaction.mk 7 1 BUY 0 15000 5 (Some 0)]
  ∧ PortfolioViewSet_buy_stock 5 minus_one (tt, test_db) =
      (Raise InvalidHolding,
       (tt, db_after (Portfolio_buy_stock 5 test_stock (-1) (test_portfolio, test_db))))
  ∧ Portfolio.balance <$>
      portfolios (db_after (PortfolioViewSet_buy_stock 5 minus_one (tt, test_db))) !! 1 =
      Some 115000.
Proof. vm_compute. repeat split; reflexivity. Qed.

(** ** Stored symbols stay upper-case *)





(** * Further properties *)

(** ** The buy endpoint, case by case *)

Lemma python_int_run {S} v (st : S) :
  python_int v st = (fst (python_int v st), st)
  ∧ fst (python_int v st) ≠ Raise (A:=Z) Http404
  ∧ (∀ e, fst (python_int v st) = Raise e → e = ValueError ∨ e = TypeError).
Proof.
  destruct v as [|s|n]; cbn; [| destruct (int_of_str s) |]; cbn;
    (split; [reflexivity|]; split; [discriminate|]); intros e [=]; auto.
Qed.

(** The endpoint, unfolded into the decisions it takes. *)
Lemma view_buy_stock_run now request db :
  PortfolioViewSet_buy_stock now request (tt, db) =
    match fst (python_int (data_quantity request) (tt, db)) with
    | Raise _ =>
        (Ok (mkResponse HTTP_400_BAD_REQUEST "error" "Invalid quantity provided"), (tt, db))
    | Ok q =>
        match data_symbol request with
        | VStr sy =>
            match filter (λ s, Stock.symbol s = upper sy) (snd <$> map_to_list (stocks db)) with
            | [] => (Raise Http404, (tt, db))
            | [stock] =>
                match first_by_pk (filter (λ p, Portfolio.user p = request_user request)
                                     (snd <$> map_to_list (portfolios db))) with
                | None => (Raise AttributeError, (tt, db))
                | Some p =>
                    if Portfolio.balance p >=? Stock.current_price stock * q
                    then
                      (match fst (Portfolio_buy_stock now stock q (p, db)) with
                       | Ok _ =>
                           Ok (mkResponse HTTP_200_OK "success"
                                 ("Successfully purchased " +:+ pretty q +:+ " shares of "
                                    +:+ sy))
                       | Raise e => Raise e
                       end,
                       (tt, db_after (Portfolio_buy_stock now stock q (p, db))))
                    else
                      (Ok (mkResponse HTTP_400_BAD_REQUEST "error"
                             "Insufficient funds for this purchase"), (tt, db))
                end
            | _ => (Raise MultipleObjectsReturned, (tt, db))
            end
        | _ => (Raise AttributeError, (tt, db))
        end
    end.
Proof.
  destruct request as [u sym qv].
  cbv beta iota zeta delta
    [PortfolioViewSet_buy_stock try_except_ValueError_TypeError bind python_int
     value_upper get_object_or_404_Stock get_queryset_first query invoke
     Portfolio_can_buy_stock self ret raise db_after format_value
     data_quantity data_symbol request_user].
  cbn [fst snd].
  destruct qv as [|s|q]; [done | destruct (int_of_str s) as [q|]; [|done] | ].
  all: cbn [fst snd]; destruct sym as [|sy|]; cbn [fst snd]; try done.
  all: destruct (filter (λ s0, Stock.symbol s0 = upper sy) (snd <$> map_to_list (stocks db)))
         as [|stock [|]]; cbn [fst snd]; try done.
  all: destruct (first_by_pk _) as [p|]; cbn [fst snd]; try done.
  all: destruct (Portfolio.balance p >=? _) eqn:Hafford; cbn [fst snd]; try done.
  all: rewrite buy_stock_run.
  all: destruct (_ <? _); [|destruct (_ <? _)]; reflexivity.
Qed.

Lemma first_by_pk_elem l p : first_by_pk l = Some p → p ∈ l.
Proof.
  revert p. induction l as [|a l IH]; intros p; [discriminate|].
  change (first_by_pk (a :: l)) with
    (match first_by_pk l with
     | Some q => if Portfolio.pk q <? Portfolio.pk a then Some q else Some a
     | None => Some a
     end).
  destruct (first_by_pk l) as [b|].
  - destruct (Portfolio.pk b <? Portfolio.pk a); intros [= Heq]; subst.
    + apply list_elem_of_further. by apply IH.
    + apply list_elem_of_here.
  - intros [= Heq]; subst. apply list_elem_of_here.
Qed.

Lemma queryset_portfolio request db p :
  first_by_pk (filter (λ p, Portfolio.user p = request_user request)
                 (snd <$> map_to_list (portfolios db))) = Some p →
  Portfolio.user p = request_user request ∧ ∃ k, portfolios db !! k = Some p.
Proof.
  intros [Hu Hin]%first_by_pk_elem%list_elem_of_filter. split; [exact Hu|].
  apply list_elem_of_fmap in Hin as ([k p0] & Heq & Hin). cbn in Heq. subst p0.
  exists k. by apply elem_of_map_to_list.
Qed.

Lemma no_stock_with_symbol db symbol :
  (∀ k s, stocks db !! k = Some s → Stock.symbol s ≠ symbol) →
  filter (λ s, Stock.symbol s = symbol) (snd <$> map_to_list (stocks db)) = [].
Proof.
  intros Hnone. apply elem_of_nil_inv. intros s [Hs Hin]%list_elem_of_filter.
  apply list_elem_of_fmap in Hin as ([k s0] & Heq & Hin). cbn in Heq. subst s0.
  apply elem_of_map_to_list in Hin. by apply (Hnone k s).
Qed.

(** The exceptions that can leave the endpoint. *)
Lemma view_buy_stock_raises now request db e :
  fst (PortfolioViewSet_buy_stock now request (tt, db)) = Raise e →
  e = Http404 ∨ e = AttributeError ∨ e = MultipleObjectsReturned ∨ e = InvalidHolding.
Proof.
  rewrite view_buy_stock_run.
  destruct (fst (python_int _ _)) as [q|]; [|discriminate].
  destruct (data_symbol request) as [|sy|]; cbn [fst]; try (intros [= <-]; auto).
  destruct (filter _ _) as [|stock [|]]; cbn [fst]; try (intros [= <-]; auto).
  destruct (first_by_pk _) as [p|]; cbn [fst]; try (intros [= <-]; auto).
  destruct (Portfolio.balance p >=? _) eqn:Hafford; cbn [fst]; [|discriminate].
  rewrite buy_stock_run. rewrite Z.geb_leb in Hafford. apply Z.leb_le in Hafford.
  destruct (Z.ltb_spec (Portfolio.balance p) (Stock.current_price stock * q)); [lia|].
  destruct (_ <? _); cbn [fst]; [intros [= <-]; auto | discriminate].
Qed.

Lemma lstrip_elem c l : c ∈ lstrip l → c ∈ l.
Proof.
  induction l as [|a l IH]; cbn; [done|].
  destruct (is_space a); [|done]. intros Hin. apply list_elem_of_further. by apply IH.
Qed.

Lemma strip_elem c l : c ∈ strip l → c ∈ l.
Proof.
  unfold strip. rewrite list_elem_of_In, <- in_rev, <- list_elem_of_In.
  intros Hin%lstrip_elem. rewrite list_elem_of_In, <- in_rev, <- list_elem_of_In in Hin.
  by apply lstrip_elem.
Qed.

Lemma parse_digits_no_digit acc l :
  Forall (λ c, digit_value c = None) l → parse_digits acc false l = None.
Proof.
  destruct l as [|c l]; [done|]. intros [Hc _]%Forall_cons. cbn.
  destruct (Ascii.eqb c "_"); [done|]. by rewrite Hc.
Qed.

(** [int] rejects a text that has no decimal digit in it. *)
Lemma int_of_str_no_digit s :
  Forall (λ c, digit_value c = None) (list_ascii_of_string s) → int_of_str s = None.
Proof.
  intros Hall. unfold int_of_str.
  assert (Hstrip : Forall (λ c, digit_value c = None) (strip (list_ascii_of_string s))).
  { apply Forall_forall. intros c Hc%strip_elem. by eapply Forall_forall in Hall. }
  destruct (strip (list_ascii_of_string s)) as [|c l]; [done|].
  pose proof Hstrip as [_ Htail]%Forall_cons.
  destruct (Ascii.eqb c "-"); [by rewrite parse_digits_no_digit|].
  destruct (Ascii.eqb c "+"); by rewrite parse_digits_no_digit.
Qed.

(** X1. A request that has no quantity, or whose quantity is a text of
    ASCII characters none of which is a decimal digit (the empty text,
    "abc", "-"), is answered 400 "Invalid quantity provided", whatever the
    symbol, the stocks and the portfolios are, a missing symbol included;
    the database is as it was. *)
Theorem view_buy_stock_quantity_without_digits now request db :
  data_quantity request = VNone
  ∨ (∃ s, data_quantity request = VStr s
          ∧ Forall (λ c, (nat_of_ascii c < 128)%nat ∧ digit_value c = None)
              (list_ascii_of_string s)) →
  PortfolioViewSet_buy_stock now request (tt, db) =
    (Ok (mkResponse HTTP_400_BAD_REQUEST "error" "Invalid quantity provided"), (tt, db)).
Proof.
  intros Hq. apply view_buy_stock_rejects_non_numeric.
  destruct Hq as [Hq | (s & Hs & Hall)]; [by left|]. right. exists s. split; [exact Hs|].
  apply int_of_str_no_digit. eapply Forall_impl; [exact Hall|]. by intros c [_ Hc].
Qed.

Lemma view_buy_stock_quantity_without_digits_witness :
  PortfolioViewSet_buy_stock 5 (mkRequest 7 VNone (VStr "abc")) (tt, test_db) =
    (Ok (mkResponse 400 "error" "Invalid quantity provided"), (tt, test_db))
  ∧ PortfolioViewSet_buy_stock 5 (mkRequest 7 (VStr "AAPL") VNone) (tt, test_db) =
      (Ok (mkResponse 400 "error" "Invalid quantity provided"), (tt, test_db)).
Proof.
  split.
  - apply (view_buy_stock_quantity_without_digits 5 (mkRequest 7 VNone (VStr "abc")) test_db).
    right. exists "abc". split; [reflexivity|].
    repeat constructor; vm_compute; lia.
  - apply (view_buy_stock_quantity_without_digits 5 (mkRequest 7 (VStr "AAPL") VNone) test_db).
    by left.
Defined.

Lemma get_object_or_404_Stock_found {T} (this : T) symbol db stock :
  fst (get_object_or_404_Stock symbol (this, db)) = Ok stock →
  filter (λ s, Stock.symbol s = symbol) (snd <$> map_to_list (stocks db)) = [stock].
Proof.
  unfold get_object_or_404_Stock, bind, query. cbn [fst snd].
  destruct (filter _ _) as [|s [|]]; cbn; [discriminate | | discriminate].
  by intros [= ->].
Qed.

Section RequestFound.
Context (now : DateTime) (request : Request) (db : Database).
Context (sy : string) (q : Z) (stock : Stock.t) (p : Portfolio.t).
Hypothesis request_symbol : data_symbol request = VStr sy.
Hypothesis request_quantity : fst (python_int (data_quantity request) (tt, db)) = Ok q.
Hypothesis stock_found : fst (get_object_or_404_Stock (upper sy) (tt, db)) = Ok stock.
Hypothesis portfolio_found : fst (get_queryset_first request (tt, db)) = Ok (Some p).

Lemma view_buy_stock_found :
  PortfolioViewSet_buy_stock now request (tt, db) =
    if Portfolio.balance p >=? Stock.current_price stock * q
    then
      (match fst (Portfolio_buy_stock now stock q (p, db)) with
       | Ok _ =>
           Ok (mkResponse HTTP_200_OK "success"
                 ("Successfully purchased " +:+ pretty q +:+ " shares of " +:+ sy))
       | Raise e => Raise e
       end,
       (tt, db_after (Portfolio_buy_stock now stock q (p, db))))
    else
      (Ok (mkResponse HTTP_400_BAD_REQUEST "error" "Insufficient funds for this purchase"),
       (tt, db)).
Proof.
  rewrite view_buy_stock_run, request_quantity, request_symbol.
  rewrite (get_object_or_404_Stock_found tt (upper sy) db stock stock_found).
  unfold get_queryset_first, query in portfolio_found. cbn [fst snd] in portfolio_found.
  injection portfolio_found as ->. reflexivity.
Qed.

(** X2. When the quantity is an integer, the stock and the caller's
    portfolio are found and the balance is below price times quantity, the
    endpoint answers 400 "Insufficient funds for this purchase" and the
    database is as it was. *)
Theorem view_buy_stock_insufficient_funds :
  Portfolio.balance p < Stock.current_price stock * q →
  PortfolioViewSet_buy_stock now request (tt, db) =
    (Ok (mkResponse HTTP_400_BAD_REQUEST "error" "Insufficient funds for this purchase"),
     (tt, db)).
Proof.
  intros Hlt. rewrite view_buy_stock_found, Z.geb_leb.
  by destruct (Z.leb_spec (Stock.current_price stock * q) (Portfolio.balance p)); [lia|].
Qed.

(** X3. When the quantity is an integer that is not negative, the stock
    and the caller's portfolio are found, the balance covers price times
    quantity and what is held is not negative, the endpoint answers 200
    with the confirmation message, and the database is the one before with
    the portfolio's row at the debited balance, the holding increased by
    the quantity and one BUY transaction, in the portfolio user's name, at
    the end of the log. *)
Theorem view_buy_stock_success :
  0 ≤ q →
  0 ≤ held db (Portfolio.pk p) (Stock.pk stock) →
  Stock.current_price stock * q ≤ Portfolio.balance p →
  let total_cost := Stock.current_price stock * q in
  let p' := Portfolio_set_balance (Portfolio.balance p - total_cost) p in
  PortfolioViewSet_buy_stock now request (tt, db) =
    (Ok (mkResponse HTTP_200_OK "success"
           ("Successfully purchased " +:+ pretty q +:+ " shares of " +:+ sy)),
     (tt, mkDatabase (stocks db) (<[Portfolio.pk p := p']> (portfolios db))
            (<[(Portfolio.pk p, Stock.pk stock) :=
                 held db (Portfolio.pk p) (Stock.pk stock) + q]> (holdings db))
            (transactions db ++
               [Transaction.mk (Portfolio.user p) (Stock.pk stock) BUY q
                  (Stock.current_price stock) now (Some total_cost)])
            (snapshots db))).
Proof.
  intros Hq Hheld Hcost total_cost p'. subst total_cost p'.
  rewrite view_buy_stock_found, Z.geb_leb, buy_stock_run.
  destruct (Z.leb_spec (Stock.current_price stock * q) (Portfolio.balance p)); [|lia].
  destruct (Z.ltb_spec (Portfolio.balance p) (Stock.current_price stock * q)); [lia|].
  destruct (Z.ltb_spec (held db (Portfolio.pk p) (Stock.pk stock) + q) 0); [lia|].
  reflexivity.
Qed.
End RequestFound.

Lemma view_buy_stock_insufficient_funds_witness :
  PortfolioViewSet_buy_stock 5 (mkRequest 7 (VStr "aapl") (VStr "10")) (tt, test_db) =
    (Ok (mkResponse 400 "error" "Insufficient funds for this purchase"), (tt, test_db)).
Proof.
  apply (view_buy_stock_insufficient_funds 5 (mkRequest 7 (VStr "aapl") (VStr "10")) test_db
           "aapl" 10 test_stock test_portfolio);
    vm_compute; reflexivity.
Defined.

Lemma view_buy_stock_success_witness :
  ∃ db',
    PortfolioViewSet_buy_stock 5 (mkRequest 7 (VStr "aapl") (VStr "2")) (tt, test_db) =
      (Ok (mkResponse 200 "success" "Successfully purchased 2 shares of aapl"), (tt, db'))
    ∧ Portfolio.balance <$> portfolios db' !! 1 = Some 70000
    ∧ holdings db' !! (1, 1) = Some 2.
Proof.
  eexists. split.
  - apply (view_buy_stock_success 5 (mkRequest 7 (VStr "aapl") (VStr "2")) test_db
             "aapl" 2 test_stock test_portfolio);
      vm_compute; first [reflexivity | discriminate].
  - vm_compute. split; reflexivity.
Defined.

(** X4. When the quantity is an integer and no stored stock has the
    upper-cased symbol of the request, the endpoint raises Http404 and the
    database is as it was. *)
Theorem view_buy_stock_unknown_symbol now request db sy q :
  data_symbol request = VStr sy →
  fst (python_int (data_quantity request) (tt, db)) = Ok q →
  (∀ k s, stocks db !! k = Some s → Stock.symbol s ≠ upper sy) →
  PortfolioViewSet_buy_stock now request (tt, db) = (Raise Http404, (tt, db)).
Proof.
  intros Hsym Hq Hnone.
  by rewrite view_buy_stock_run, Hq, Hsym, no_stock_with_symbol.
Qed.

Lemma view_buy_stock_unknown_symbol_witness :
  PortfolioViewSet_buy_stock 5 (mkRequest 7 (VStr "msft") (VStr "2")) (tt, test_db) =
    (Raise Http404, (tt, test_db)).
Proof.
  apply (view_buy_stock_unknown_symbol 5 (mkRequest 7 (VStr "msft") (VStr "2")) test_db
           "msft" 2); [reflexivity | reflexivity |].
  intros k s Hs. unfold test_db in Hs. cbn [stocks] in Hs.
  apply lookup_singleton_Some in Hs as [_ <-]. vm_compute. discriminate.
Defined.

(** X5. The symbol of a request is matched without regard to case: two
    requests that differ only in the case of the letters of the symbol
    leave the same database and get the same status code, or the same
    exception. *)
Theorem view_buy_stock_symbol_case_insensitive now user sy sy' quantity db :
  upper sy = upper sy' →
  let r := PortfolioViewSet_buy_stock now (mkRequest user (VStr sy) quantity) (tt, db) in
  let r' := PortfolioViewSet_buy_stock now (mkRequest user (VStr sy') quantity) (tt, db) in
  db_after r = db_after r' ∧ response_status (fst r) = response_status (fst r').
Proof.
  intros Hupper r r'. subst r r'. rewrite !view_buy_stock_run.
  cbn [data_quantity data_symbol request_user]. rewrite <- Hupper.
  destruct (fst (python_int quantity (tt, db))) as [q|]; [|done].
  destruct (filter _ _) as [|stock [|]]; try done.
  destruct (first_by_pk _) as [p|]; [|done].
  destruct (_ >=? _); [|done]. unfold db_after. cbn [fst snd].
  by destruct (fst (Portfolio_buy_stock now stock q (p, db))).
Qed.

Lemma view_buy_stock_symbol_case_insensitive_witness :
  db_after (PortfolioViewSet_buy_stock 5 (mkRequest 7 (VStr "aapl") (VStr "2")) (tt, test_db)) =
  db_after (PortfolioViewSet_buy_stock 5 (mkRequest 7 (VStr "AaPl") (VStr "2")) (tt, test_db)).
Proof.
  apply (view_buy_stock_symbol_case_insensitive 5 7 "aapl" "AaPl" (VStr "2") test_db).
  reflexivity.
Defined.

(** X6. No ValueError, TypeError, insufficient-funds error or DoesNotExist
    leaves the endpoint; and whenever it answers with status 400, or raises
    Http404, AttributeError or MultipleObjectsReturned, the database is as
    it was. *)
Theorem view_buy_stock_outcomes now request db :
  let r := PortfolioViewSet_buy_stock now request (tt, db) in
  (fst r ≠ Raise ValueError ∧ fst r ≠ Raise TypeError
   ∧ fst r ≠ Raise InsufficientFunds ∧ fst r ≠ Raise DoesNotExist)
  ∧ ((∃ response, fst r = Ok response ∧ status_code response = HTTP_400_BAD_REQUEST) →
     db_after r = db)
  ∧ (fst r = Raise Http404 ∨ fst r = Raise AttributeError
     ∨ fst r = Raise MultipleObjectsReturned →
     db_after r = db).
Proof.
  intros r. subst r. split.
  - repeat split; intros H; apply view_buy_stock_raises in H;
      destruct H as [H|[H|[H|H]]]; discriminate.
  - rewrite view_buy_stock_run.
    destruct (fst (python_int _ _)) as [q|]; [|done].
    destruct (data_symbol request) as [|sy|]; try done.
    destruct (filter _ _) as [|stock [|]]; try done.
    destruct (first_by_pk _) as [p|]; [|done].
    destruct (_ >=? _) eqn:Hafford; [|done].
    unfold db_after at 1 3. cbn [fst snd]. rewrite buy_stock_run.
    destruct (_ <? _); [done|]. destruct (_ <? _); cbn [fst].
    + split; [intros (response & Hr & _) | intros [Hr|[Hr|Hr]]]; discriminate.
    + split; [intros (response & Hr & Hs) | intros [Hr|[Hr|Hr]]]; try discriminate.
      injection Hr as <-. discriminate.
Qed.

(** X7. The endpoint writes for the caller only: a portfolio row that
    differs afterwards is a row of the requesting user, a holding that
    differs afterwards is a holding of one of that user's portfolios, and
    what is appended to the transaction log is in that user's name. *)
Theorem view_buy_stock_own_portfolio now request db :
  let db' := db_after (PortfolioViewSet_buy_stock now request (tt, db)) in
  (∀ k, portfolios db' !! k ≠ portfolios db !! k →
        ∃ row, portfolios db' !! k = Some row
               ∧ Portfolio.user row = request_user request)
  ∧ (∀ portfolio stock,
       holdings db' !! (portfolio, stock) ≠ holdings db !! (portfolio, stock) →
       ∃ k p, portfolios db !! k = Some p
              ∧ Portfolio.user p = request_user request
              ∧ Portfolio.pk p = portfolio)
  ∧ ∃ new, transactions db' = transactions db ++ new
           ∧ Forall (λ t, Transaction.user t = request_user request) new.
Proof.
  intros db'. subst db'. rewrite view_buy_stock_run.
  assert (Hsame : ∀ A (r : Result A),
    (∀ k, portfolios (db_after (r, (tt, db))) !! k ≠ portfolios db !! k →
       ∃ row, portfolios (db_after (r, (tt, db))) !! k = Some row
              ∧ Portfolio.user row = request_user request)
    ∧ (∀ portfolio stock,
         holdings (db_after (r, (tt, db))) !! (portfolio, stock)
         ≠ holdings db !! (portfolio, stock) →
         ∃ k p, portfolios db !! k = Some p
                ∧ Portfolio.user p = request_user request
                ∧ Portfolio.pk p = portfolio)
    ∧ ∃ new, transactions (db_after (r, (tt, db))) = transactions db ++ new
             ∧ Forall (λ t, Transaction.user t = request_user request) new).
  { intros A r. unfold db_after. cbn [snd]. repeat split; try done.
    exists []. by rewrite app_nil_r. }
  destruct (fst (python_int _ _)) as [q|]; [|apply Hsame].
  destruct (data_symbol request) as [|sy|]; try apply Hsame.
  destruct (filter _ _) as [|stock [|]]; try apply Hsame.
  destruct (first_by_pk _) as [p|] eqn:Hp; [|apply Hsame].
  destruct (_ >=? _); [|apply Hsame].
  apply queryset_portfolio in Hp as [Huser [kp Hkp]].
  unfold db_after. cbn [snd]. rewrite buy_stock_run.
  destruct (_ <? _); [apply (Hsame unit (Ok tt))|].
  assert (Hport : ∀ b k,
    <[Portfolio.pk p := Portfolio_set_balance b p]> (portfolios db) !! k
    ≠ portfolios db !! k →
    ∃ row, <[Portfolio.pk p := Portfolio_set_balance b p]> (portfolios db) !! k = Some row
           ∧ Portfolio.user row = request_user request).
  { intros b k. destruct (decide (Portfolio.pk p = k)) as [<-|Hne].
    - rewrite lookup_insert_eq. eauto.
    - by rewrite lookup_insert_ne. }
  assert (Hhold : ∀ v portfolio stock0,
    <[(Portfolio.pk p, Stock.pk stock) := v]> (holdings db) !! (portfolio, stock0)
    ≠ holdings db !! (portfolio, stock0) →
    ∃ k p0, portfolios db !! k = Some p0
            ∧ Portfolio.user p0 = request_user request
            ∧ Portfolio.pk p0 = portfolio).
  { intros v portfolio stock0.
    destruct (decide ((Portfolio.pk p, Stock.pk stock) = (portfolio, stock0))) as [[= <- <-]|Hne].
    - eauto.
    - by rewrite lookup_insert_ne. }
  destruct (_ <? _); cbn [snd portfolios holdings transactions].
  - split; [apply Hport|]. split; [apply Hhold|]. exists []. by rewrite app_nil_r.
  - split; [apply Hport|]. split; [apply Hhold|]. eexists. split; [reflexivity|].
    by repeat constructor.
Qed.

(** X8. No exception that leaves the buy action is answered by
    [handle_exception] itself: the handler passes each of them, the
    negative-quantity [ValidationError] of the models included, to the
    handler of the framework. *)
Theorem handle_exception_passes_on now request db e :
  fst (PortfolioViewSet_buy_stock now request (tt, db)) = Raise e →
  PortfolioViewSet_handle_exception (Django e) = SuperHandleException (Django e).
Proof.
  intros [-> | [-> | [-> | ->]]]%view_buy_stock_raises; reflexivity.
Qed.

Lemma handle_exception_passes_on_witness :
  fst (PortfolioViewSet_buy_stock 5 (mkRequest 7 (VStr "AAPL") (VStr "-1")) (tt, test_db)) =
    Raise InvalidHolding
  ∧ PortfolioViewSet_handle_exception (Django InvalidHolding) =
      SuperHandleException (Django InvalidHolding).
Proof.
  split; [vm_compute; reflexivity|].
  apply (handle_exception_passes_on 5 (mkRequest 7 (VStr "AAPL") (VStr "-1")) test_db).
  vm_compute. reflexivity.
Defined.

(** ** More on [buy_stock] *)

(** X9. For a quantity that is not negative and a holding that is not
    negative, [buy_stock] has two outcomes only: it returns when the
    balance covers price times quantity and it raises the
    insufficient-funds error when the balance does not. *)
Theorem buy_stock_returns_iff_affordable now p stock quantity db :
  0 ≤ quantity →
  0 ≤ held db (Portfolio.pk p) (Stock.pk stock) →
  let r := Portfolio_buy_stock now stock quantity (p, db) in
  (fst r = Ok tt ↔ Stock.current_price stock * quantity ≤ Portfolio.balance p)
  ∧ (fst r = Raise InsufficientFunds ↔
     Portfolio.balance p < Stock.current_price stock * quantity)
  ∧ (fst r = Ok tt ∨ fst r = Raise InsufficientFunds).
Proof.
  intros Hq Hheld r. subst r. rewrite buy_stock_run.
  destruct (Z.ltb_spec (Portfolio.balance p) (Stock.current_price stock * quantity)).
  - cbn. repeat split; auto; try discriminate; lia.
  - destruct (Z.ltb_spec (held db (Portfolio.pk p) (Stock.pk stock) + quantity) 0); [lia|].
    cbn. repeat split; auto; try discriminate; lia.
Qed.

Lemma buy_stock_returns_iff_affordable_witness :
  fst (Portfolio_buy_stock 5 test_stock 6 (test_portfolio, test_db)) = Ok tt
  ∧ fst (Portfolio_buy_stock 5 test_stock 7 (test_portfolio, test_db)) =
      Raise InsufficientFunds.
Proof.
  split.
  - apply (buy_stock_returns_iff_affordable 5 test_portfolio test_stock 6 test_db);
      vm_compute; discriminate.
  - apply (buy_stock_returns_iff_affordable 5 test_portfolio test_stock 7 test_db);
      vm_compute; first [discriminate | reflexivity].
Defined.

(** X10. Whatever the quantity and whether it returns or raises, a
    [buy_stock] that gets past the affordability check leaves a balance
    that is not negative, in the instance and in the row it has written;
    one that does not get past it writes nothing.  So it never turns a
    balance that is not negative into a negative one. *)
Theorem buy_stock_balance_never_negative now p stock quantity db :
  let r := Portfolio_buy_stock now stock quantity (p, db) in
  (fst r ≠ Raise InsufficientFunds →
   0 ≤ Portfolio.balance (fst (snd r))
   ∧ portfolios (db_after r) !! Portfolio.pk p = Some (fst (snd r)))
  ∧ (fst r = Raise InsufficientFunds → snd r = (p, db))
  ∧ (0 ≤ Portfolio.balance p → 0 ≤ Portfolio.balance (fst (snd r))).
Proof.
  intros r. subst r. rewrite buy_stock_run.
  destruct (Z.ltb_spec (Portfolio.balance p) (Stock.current_price stock * quantity)).
  - cbn. repeat split; auto; done.
  - destruct (_ <? _); unfold db_after; cbn [fst snd portfolios];
      rewrite lookup_insert_eq; cbn; repeat split; try lia; discriminate.
Qed.

(** X11. Two buys of the same stock that both return, the second made with
    the instance the first one left, leave the balance and the holding
    that one buy of the two quantities together leaves, which returns as
    well; they record two transactions where the one buy records one. *)
Theorem buy_stock_twice now now' p stock q1 q2 db p1 db1 p2 db2 :
  Portfolio_buy_stock now stock q1 (p, db) = (Ok tt, (p1, db1)) →
  Portfolio_buy_stock now' stock q2 (p1, db1) = (Ok tt, (p2, db2)) →
  ∃ db12,
    Portfolio_buy_stock now' stock (q1 + q2) (p, db) = (Ok tt, (p2, db12))
    ∧ stocks db12 = stocks db2
    ∧ portfolios db12 = portfolios db2
    ∧ holdings db12 = holdings db2
    ∧ snapshots db12 = snapshots db2
    ∧ length (transactions db12) = S (length (transactions db))
    ∧ length (transactions db2) = S (S (length (transactions db))).
Proof.
  intros (Hc1 & Hh1 & -> & ->)%buy_stock_Ok_inv (Hc2 & Hh2 & -> & ->)%buy_stock_Ok_inv.
  cbn zeta in *. rewrite buy_stock_run.
  unfold held in *.
  cbn [Portfolio_set_balance Portfolio.balance Portfolio.pk Portfolio.user
       Portfolio.created_at holdings portfolios stocks snapshots transactions] in *.
  rewrite lookup_insert_eq in Hh2 |- *.
  change (default 0 (Some ?x)) with x in *.
  set (h := default 0 (holdings db !! (Portfolio.pk p, Stock.pk stock))) in *.
  set (price := Stock.current_price stock) in *.
  assert (Hcost : price * (q1 + q2) = price * q1 + price * q2) by ring.
  destruct (Z.ltb_spec (Portfolio.balance p) (price * (q1 + q2))); [lia|].
  destruct (Z.ltb_spec (h + (q1 + q2)) 0); [lia|].
  assert (Hp : Portfolio_set_balance (Portfolio.balance p - price * (q1 + q2)) p =
               Portfolio_set_balance (Portfolio.balance p - price * q1 - price * q2)
                 (Portfolio_set_balance (Portfolio.balance p - price * q1) p)).
  { unfold Portfolio_set_balance. cbn. f_equal. lia. }
  rewrite Hp. eexists. split; [reflexivity|].
  cbn. rewrite !insert_insert_eq, !length_app. cbn.
  repeat split; try lia. f_equal. lia.
Qed.

Lemma buy_stock_twice_witness :
  let r1 := Portfolio_buy_stock 5 test_stock 2 (test_portfolio, test_db) in
  let r2 := Portfolio_buy_stock 6 test_stock 3 (snd r1) in
  let r12 := Portfolio_buy_stock 6 test_stock (2 + 3) (test_portfolio, test_db) in
  fst r1 = Ok tt ∧ fst r2 = Ok tt ∧ fst r12 = Ok tt
  ∧ holdings (db_after r12) = holdings (db_after r2).
Proof.
  intros r1 r2 r12.
  assert (H1 : r1 = (Ok tt, (fst (snd r1), snd (snd r1)))) by (vm_compute; reflexivity).
  assert (H2 : Portfolio_buy_stock 6 test_stock 3 (fst (snd r1), snd (snd r1)) =
               (Ok tt, (fst (snd r2), snd (snd r2)))) by (vm_compute; reflexivity).
  destruct (buy_stock_twice 5 6 test_portfolio test_stock 2 3 test_db _ _ _ _ H1 H2)
    as (db12 & Hrun & _ & _ & Hh & _).
  split; [vm_compute; reflexivity|]. split; [vm_compute; reflexivity|].
  subst r12. rewrite Hrun. split; [reflexivity | exact Hh].
Defined.

(** X12. [buy_stock] debits the balance of the instance, not of the row:
    after two buys that return, both made with the same instance as it was
    read before the first, the row holds the balance less the second cost
    only, while the holding has grown by both quantities and two
    transactions are recorded. *)
Theorem buy_stock_stale_instance now now' p stock q1 q2 db p1 db1 p2 db2 :
  Portfolio_buy_stock now stock q1 (p, db) = (Ok tt, (p1, db1)) →
  Portfolio_buy_stock now' stock q2 (p, db1) = (Ok tt, (p2, db2)) →
  Portfolio.balance <$> portfolios db2 !! Portfolio.pk p =
    Some (Portfolio.balance p - Stock.current_price stock * q2)
  ∧ held db2 (Portfolio.pk p) (Stock.pk stock) =
      held db (Portfolio.pk p) (Stock.pk stock) + q1 + q2
  ∧ ∃ t1 t2, transactions db2 = transactions db ++ [t1; t2]
             ∧ Transaction.quantity t1 = q1 ∧ Transaction.quantity t2 = q2.
Proof.
  intros (_ & _ & -> & ->)%buy_stock_Ok_inv (_ & _ & -> & ->)%buy_stock_Ok_inv.
  unfold held. cbn. rewrite !lookup_insert_eq. cbn. repeat split.
  eexists _, _. rewrite <- app_assoc. cbn. repeat split.
Qed.

Lemma buy_stock_stale_instance_witness :
  let r1 := Portfolio_buy_stock 5 test_stock 2 (test_portfolio, test_db) in
  let r2 := Portfolio_buy_stock 6 test_stock 3 (test_portfolio, db_after r1) in
  fst r1 = Ok tt ∧ fst r2 = Ok tt
  ∧ Portfolio.balance <$> portfolios (db_after r2) !! 1 = Some (100000 - 15000 * 3)
  ∧ held (db_after r2) 1 1 = 0 + 2 + 3.
Proof.
  intros r1 r2.
  assert (H1 : r1 = (Ok tt, (fst (snd r1), snd (snd r1)))) by (vm_compute; reflexivity).
  assert (H2 : Portfolio_buy_stock 6 test_stock 3 (test_portfolio, snd (snd r1)) =
               (Ok tt, (fst (snd r2), snd (snd r2)))) by (vm_compute; reflexivity).
  destruct (buy_stock_stale_instance 5 6 test_portfolio test_stock 2 3 test_db _ _ _ _ H1 H2)
    as (Hb & Hh & _).
  split; [vm_compute; reflexivity|]. split; [vm_compute; reflexivity|].
  split; [exact Hb | exact Hh].
Defined.

(** X13. A buy of zero shares of a stock that is not held returns whenever
    the balance is not negative: it leaves the balance as it was, creates a
    holding row with quantity 0 and records a transaction of 0 shares with
    a total amount of 0. *)
Theorem buy_stock_zero_shares now p stock db :
  0 ≤ Portfolio.balance p →
  holdings db !! (Portfolio.pk p, Stock.pk stock) = None →
  let r := Portfolio_buy_stock now stock 0 (p, db) in
  fst r = Ok tt
  ∧ Portfolio.balance (fst (snd r)) = Portfolio.balance p
  ∧ holdings (db_after r) !! (Portfolio.pk p, Stock.pk stock) = Some 0
  ∧ ∃ t, transactions (db_after r) = transactions db ++ [t]
         ∧ Transaction.quantity t = 0 ∧ Transaction.total_amount t = Some 0.
Proof.
  intros Hb Hnone r. subst r. rewrite buy_stock_run. unfold held. rewrite Hnone.
  cbn [default from_option id]. rewrite Z.mul_0_r.
  destruct (Z.ltb_spec (Portfolio.balance p) 0); [lia|].
  change (0 + 0 <? 0) with false. unfold db_after. cbn. rewrite lookup_insert_eq.
  repeat split; [lia|]. eexists. repeat split.
Qed.

Lemma buy_stock_zero_shares_witness :
  fst (Portfolio_buy_stock 5 test_stock 0 (test_portfolio, test_db)) = Ok tt
  ∧ holdings (db_after (Portfolio_buy_stock 5 test_stock 0 (test_portfolio, test_db)))
      !! (1, 1) = Some 0.
Proof.
  assert (Hb : 0 ≤ Portfolio.balance test_portfolio) by (vm_compute; discriminate).
  assert (Hn : holdings test_db !! (Portfolio.pk test_portfolio, Stock.pk test_stock) = None)
    by reflexivity.
  destruct (buy_stock_zero_shares 5 test_portfolio test_stock test_db Hb Hn)
    as (Hr & _ & Hh & _).
  split; [exact Hr | exact Hh].
Defined.

(** ** Valuation and buying *)

Lemma holdings_rows_lookup db key v :
  holdings db !! key = Some v →
  holdings_rows db ≡ₚ
    StockHolding.mk (fst key) (snd key) v :: holdings_rows (with_holdings (delete key) db).
Proof.
  intros Hv. unfold holdings_rows. cbn [with_holdings holdings].
  by rewrite <- (map_to_list_delete (holdings db) key v Hv).
Qed.

Lemma holdings_rows_insert db db' key v :
  holdings db' = <[key := v]> (holdings db) →
  holdings_rows db' ≡ₚ
    StockHolding.mk (fst key) (snd key) v :: holdings_rows (with_holdings (delete key) db).
Proof.
  intros Hv. unfold holdings_rows. cbn [with_holdings holdings].
  rewrite Hv, <- insert_delete_eq, map_to_list_insert by apply lookup_delete_eq.
  reflexivity.
Qed.

Lemma holdings_rows_absent db key :
  holdings db !! key = None →
  holdings_rows (with_holdings (delete key) db) = holdings_rows db.
Proof.
  intros Hnone. unfold holdings_rows. cbn [with_holdings holdings]. by rewrite delete_id.
Qed.

(** The holdings of a portfolio, with the row of one stock set apart. *)
Lemma holdings_all_lookup db portfolio stock :
  holdings_all portfolio db ≡ₚ
    match holdings db !! (portfolio, stock) with
    | Some v => [StockHolding.mk portfolio stock v]
    | None => []
    end ++ holdings_all portfolio (with_holdings (delete (portfolio, stock)) db).
Proof.
  unfold holdings_all. destruct (holdings db !! (portfolio, stock)) as [v|] eqn:Hv.
  - rewrite (holdings_rows_lookup db _ v Hv). cbn [fst snd].
    by rewrite filter_cons_True.
  - by rewrite holdings_rows_absent.
Qed.

Lemma holdings_all_insert db db' portfolio stock v :
  holdings db' = <[(portfolio, stock) := v]> (holdings db) →
  holdings_all portfolio db' ≡ₚ
    StockHolding.mk portfolio stock v
      :: holdings_all portfolio (with_holdings (delete (portfolio, stock)) db).
Proof.
  intros Hv. unfold holdings_all. rewrite (holdings_rows_insert db db' _ v Hv).
  cbn [fst snd]. by rewrite filter_cons_True.
Qed.

Lemma holdings_all_insert_other db db' portfolio stock v other :
  other ≠ portfolio →
  holdings db' = <[(portfolio, stock) := v]> (holdings db) →
  holdings_all other db' ≡ₚ holdings_all other db.
Proof.
  intros Hne Hv. unfold holdings_all. rewrite (holdings_rows_insert db db' _ v Hv).
  cbn [fst snd]. rewrite filter_cons_False by (cbn; congruence).
  destruct (holdings db !! (portfolio, stock)) as [w|] eqn:Hw.
  - rewrite (holdings_rows_lookup db _ w Hw). cbn [fst snd].
    by rewrite filter_cons_False by (cbn; congruence).
  - by rewrite holdings_rows_absent.
Qed.

Lemma spec_holdings_value_stocks db db' l :
  stocks db' = stocks db → spec_holdings_value db' l = spec_holdings_value db l.
Proof. intros Hs. unfold spec_holdings_value, stock_price. by rewrite Hs. Qed.

(** The total value, from any enumeration of the portfolio's holdings. *)
Lemma calculate_total_value_rows p db l :
  holdings_all (Portfolio.pk p) db ≡ₚ l →
  fst (Portfolio_calculate_total_value (p, db)) =
    if decide (Forall (λ h, is_Some (stocks db !! StockHolding.stock h)) l)
    then Ok (Portfolio.balance p + spec_holdings_value db l)
    else Raise DoesNotExist.
Proof.
  intros Hperm. rewrite calculate_total_value_run.
  rewrite (sum_holdings_permutation p db 0 _ l Hperm).
  destruct (decide _) as [Hall|Hnot].
  - by rewrite sum_holdings_priced.
  - by rewrite sum_holdings_unpriced.
Qed.

Lemma calculate_total_value_ext p db db' :
  stocks db' = stocks db →
  holdings_all (Portfolio.pk p) db' ≡ₚ holdings_all (Portfolio.pk p) db →
  fst (Portfolio_calculate_total_value (p, db')) =
  fst (Portfolio_calculate_total_value (p, db)).
Proof.
  intros Hs Hperm.
  rewrite (calculate_total_value_rows p db' _ Hperm), (calculate_total_value_rows p db _ (reflexivity _)).
  rewrite Hs, (spec_holdings_value_stocks db db') by exact Hs. reflexivity.
Qed.

(** A buy at the stored price moves value from cash to the holding. *)
Lemma buy_stock_total_value now p stock quantity db p' db' stored :
  stocks db !! Stock.pk stock = Some stored →
  Stock.current_price stored = Stock.current_price stock →
  Portfolio_buy_stock now stock quantity (p, db) = (Ok tt, (p', db')) →
  fst (Portfolio_calculate_total_value (p', db')) =
  fst (Portfolio_calculate_total_value (p, db)).
Proof.
  intros Hstored Hprice (_ & _ & -> & ->)%buy_stock_Ok_inv.
  set (key_p := Portfolio.pk p) in *. set (key_s := Stock.pk stock) in *.
  set (rest := holdings_all key_p (with_holdings (delete (key_p, key_s)) db)).
  rewrite (calculate_total_value_rows _ _
             (StockHolding.mk key_p key_s (held db key_p key_s + quantity) :: rest))
    by (by apply holdings_all_insert).
  rewrite (calculate_total_value_rows p db _ (holdings_all_lookup db key_p key_s)).
  fold rest. cbn [stocks Portfolio_set_balance Portfolio.balance].
  assert (Hpriced : is_Some (stocks db !! key_s)) by (by exists stored).
  assert (Hvalue : stock_price db key_s = Stock.current_price stock).
  { unfold stock_price. by rewrite Hstored. }
  rewrite (spec_holdings_value_stocks db _) by reflexivity.
  unfold held. destruct (holdings db !! (key_p, key_s)) as [h|]; cbn [default from_option id app].
  - destruct (decide (Forall _ (_ :: rest))) as [Hall|Hnot];
      destruct (decide (Forall _ (_ :: rest))) as [Hall'|Hnot'].
    + f_equal. unfold spec_holdings_value. cbn [foldr StockHolding.quantity StockHolding.stock].
      rewrite Hvalue. ring.
    + destruct Hnot'. apply Forall_cons in Hall as [_ Hall]. by constructor.
    + destruct Hnot. apply Forall_cons in Hall' as [_ Hall']. by constructor.
    + reflexivity.
  - destruct (decide (Forall _ (_ :: rest))) as [Hall|Hnot];
      destruct (decide (Forall _ rest)) as [Hall'|Hnot'].
    + f_equal. unfold spec_holdings_value. cbn [foldr StockHolding.quantity StockHolding.stock].
      rewrite Hvalue. ring.
    + destruct Hnot'. by apply Forall_cons in Hall as [_ Hall].
    + destruct Hnot. by constructor.
    + reflexivity.
Qed.

(** X14. A buy that returns, made at the price the stock table holds for
    the stock, leaves the total value of the portfolio as it was: what the
    balance loses the holding gains.  A snapshot taken after the buy
    records that same total and a cash balance lower by price times
    quantity. *)
Theorem buy_stock_preserves_total_value now now' p stock quantity db p' db' stored :
  stocks db !! Stock.pk stock = Some stored →
  Stock.current_price stored = Stock.current_price stock →
  Portfolio_buy_stock now stock quantity (p, db) = (Ok tt, (p', db')) →
  fst (Portfolio_calculate_total_value (p', db')) =
    fst (Portfolio_calculate_total_value (p, db))
  ∧ fst (Portfolio_create_daily_snapshot now' (p', db')) =
      match fst (Portfolio_calculate_total_value (p, db)) with
      | Ok total =>
          Ok (PortfolioSnapshot.mk (Portfolio.pk p) total
                (Portfolio.balance p - Stock.current_price stock * quantity) now')
      | Raise e => Raise e
      end.
Proof.
  intros Hstored Hprice Hrun.
  pose proof (buy_stock_total_value now p stock quantity db p' db' stored
                Hstored Hprice Hrun) as Hvalue.
  split; [exact Hvalue|].
  rewrite create_daily_snapshot_run, Hvalue.
  apply buy_stock_Ok_inv in Hrun as (_ & _ & -> & _).
  by destruct (fst (Portfolio_calculate_total_value (p, db))).
Qed.

Lemma buy_stock_preserves_total_value_witness :
  let r := Portfolio_buy_stock 5 test_stock 4 (test_portfolio, two_holdings_db) in
  fst r = Ok tt
  ∧ fst (Portfolio_calculate_total_value (test_portfolio, two_holdings_db)) = Ok 265000
  ∧ fst (Portfolio_calculate_total_value (snd r)) = Ok 265000.
Proof.
  intros r.
  assert (Hrun : r = (Ok tt, (fst (snd r), snd (snd r)))) by (vm_compute; reflexivity).
  assert (Hstored : stocks two_holdings_db !! Stock.pk test_stock = Some test_stock)
    by (vm_compute; reflexivity).
  destruct (buy_stock_preserves_total_value 5 9 test_portfolio test_stock 4 two_holdings_db
              _ _ test_stock Hstored eq_refl Hrun) as [Hvalue _].
  split; [vm_compute; reflexivity|]. split; [vm_compute; reflexivity|].
  rewrite (surjective_pairing (snd r)), Hvalue. vm_compute. reflexivity.
Defined.

(** X15. Whatever its outcome, a [buy_stock] on one portfolio leaves the
    total value of every portfolio with another key as it was. *)
Theorem buy_stock_other_portfolio_value now p stock quantity db other :
  Portfolio.pk other ≠ Portfolio.pk p →
  fst (Portfolio_calculate_total_value
         (other, db_after (Portfolio_buy_stock now stock quantity (p, db)))) =
  fst (Portfolio_calculate_total_value (other, db)).
Proof.
  intros Hne. rewrite buy_stock_run.
  destruct (_ <? _); [reflexivity|].
  destruct (_ <? _); unfold db_after; cbn [snd];
    (apply calculate_total_value_ext; [reflexivity|]);
    by eapply holdings_all_insert_other.
Qed.

Lemma buy_stock_other_portfolio_value_witness :
  let other := Portfolio.mk 2 8 5000 0 in
  fst (Portfolio_calculate_total_value
         (other, db_after (Portfolio_buy_stock 5 test_stock 2 (test_portfolio, test_db)))) =
  fst (Portfolio_calculate_total_value (other, test_db)).
Proof.
  intros other.
  apply (buy_stock_other_portfolio_value 5 test_portfolio test_stock 2 test_db other).
  vm_compute. discriminate.
Defined.

(** ** What the operations keep *)

(** What one operation appends to the two logs. *)
Lemma run_logs op db :
  (∃ new, transactions (run op db) = transactions db ++ new ∧ Forall totalled new)
  ∧ (∃ new, snapshots (run op db) = snapshots db ++ new).
Proof.
  assert (Hsame : (∃ new, transactions db = transactions db ++ new ∧ Forall totalled new)
                  ∧ (∃ new, snapshots db = snapshots db ++ new)).
  { split; exists []; by rewrite app_nil_r. }
  assert (Hbuy : ∀ now p stock q,
    (∃ new, transactions (db_after (Portfolio_buy_stock now stock q (p, db))) =
              transactions db ++ new ∧ Forall totalled new)
    ∧ (∃ new, snapshots (db_after (Portfolio_buy_stock now stock q (p, db))) =
                snapshots db ++ new)).
  { intros now p stock q. rewrite buy_stock_run.
    destruct (_ <? _); [exact Hsame|]. destruct (_ <? _); unfold db_after; cbn.
    - split; exists []; by rewrite app_nil_r.
    - split; [|exists []; by rewrite app_nil_r].
      eexists. split; [reflexivity|]. by repeat constructor. }
  destruct op as [s|now sy na pr|p|now u b|h|po st q|now u st ty q pr
                  |now p st q|now p|now request]; cbn [run].
  - rewrite Stock_save_run. by destruct (_ <=? _).
  - rewrite Stock_objects_create_run. by destruct (_ <=? _).
  - exact Hsame.
  - exact Hsame.
  - rewrite StockHolding_save_run. by destruct (_ <? _).
  - rewrite get_or_create_run. destruct (holdings db !! _); [exact Hsame|].
    by destruct (_ <? _).
  - unfold db_after. cbn. split; [|exists []; by rewrite app_nil_r].
    eexists. split; [reflexivity|]. by repeat constructor.
  - apply Hbuy.
  - rewrite create_daily_snapshot_run. destruct (fst _); [|exact Hsame].
    unfold db_after. cbn. split; [exists []; by rewrite app_nil_r | by eexists].
  - destruct (view_buy_stock_db_after now request db) as [->|(p & st & q & ->)];
      [exact Hsame | apply Hbuy].
Qed.

(** X16. The transaction log and the snapshot log only grow: after any
    sequence of operations, whether they return or raise, the transactions
    and the snapshots stored before are still there, in their order, at the
    head of the logs. *)
Theorem logs_append_only ops db :
  transactions db `prefix_of` transactions (foldl (λ d op, run op d) db ops)
  ∧ snapshots db `prefix_of` snapshots (foldl (λ d op, run op d) db ops).
Proof.
  revert db. induction ops as [|op ops IH]; intros db; cbn [foldl]; [done|].
  destruct (IH (run op db)) as [Ht Hs].
  destruct (run_logs op db) as [(new & Hnew & _) (new' & Hnew')].
  split.
  - etrans; [|exact Ht]. rewrite Hnew. by apply prefix_app_r.
  - etrans; [|exact Hs]. rewrite Hnew'. by apply prefix_app_r.
Qed.

Lemma stock_candidate_stored db symbol stock l :
  filter (λ s, Stock.symbol s = symbol) (snd <$> map_to_list (stocks db)) = stock :: l →
  ∃ k, stocks db !! k = Some stock.
Proof.
  intros Hfilter.
  assert (Hin : stock ∈ filter (λ s, Stock.symbol s = symbol) (snd <$> map_to_list (stocks db)))
    by (rewrite Hfilter; apply list_elem_of_here).
  apply list_elem_of_filter in Hin as [_ Hin].
  apply list_elem_of_fmap in Hin as ([k s0] & Heq & Hin). cbn in Heq. subst s0.
  exists k. by apply elem_of_map_to_list.
Qed.

(** X17. What the endpoint appends to the transaction log is a purchase at
    the stored price: every transaction it records is of type BUY, names a
    stock of the stock table with that stock's stored current price as its
    price, and has that price times its quantity as total amount. *)
Theorem view_buy_stock_records_stored_price now request db :
  ∃ new,
    transactions (db_after (PortfolioViewSet_buy_stock now request (tt, db))) =
      transactions db ++ new
    ∧ Forall (λ t, Transaction.transaction_type t = BUY
                   ∧ totalled t
                   ∧ ∃ k s, stocks db !! k = Some s
                            ∧ Transaction.stock t = Stock.pk s
                            ∧ Transaction.price t = Stock.current_price s) new.
Proof.
  rewrite view_buy_stock_run.
  assert (Hsame : ∀ A (r : Result A) P,
    ∃ new, transactions (db_after (r, (tt, db))) = transactions db ++ new ∧ Forall P new).
  { intros A r P. exists []. unfold db_after. cbn. by rewrite app_nil_r. }
  destruct (fst (python_int _ _)) as [q|]; [|apply Hsame].
  destruct (data_symbol request) as [|sy|]; try apply Hsame.
  destruct (filter _ _) as [|stock [|]] eqn:Hstock; try apply Hsame.
  destruct (first_by_pk _) as [p|]; [|apply Hsame].
  destruct (_ >=? _); [|apply Hsame].
  apply stock_candidate_stored in Hstock as [k Hk].
  unfold db_after. cbn [snd]. rewrite buy_stock_run.
  destruct (_ <? _); [apply (Hsame unit (Ok tt))|].
  destruct (_ <? _); cbn [snd transactions].
  - exists []. by rewrite app_nil_r.
  - eexists. split; [reflexivity|]. repeat constructor. by exists k, stock.
Qed.


(** ** Round trips *)

(** X19. [get_or_create] never writes over a holding that exists: it
    reports a creation exactly when the pair had no row, and otherwise
    leaves the database as it was.  When it returns, the row of the pair
    is the holding returned, the other rows are as before, and a second
    call, whatever its default quantity, returns the same holding, reports
    no creation and changes nothing. *)
Theorem get_or_create_idempotent portfolio stock quantity db h created db' :
  StockHolding_objects_get_or_create portfolio stock quantity (tt, db) =
    (Ok (h, created), (tt, db')) →
  (created = true ↔ holdings db !! (portfolio, stock) = None)
  ∧ (created = false → db' = db)
  ∧ h = StockHolding.mk portfolio stock (held db' portfolio stock)
  ∧ is_Some (holdings db' !! (portfolio, stock))
  ∧ (∀ key, key ≠ (portfolio, stock) → holdings db' !! key = holdings db !! key)
  ∧ ∀ quantity',
      StockHolding_objects_get_or_create portfolio stock quantity' (tt, db') =
        (Ok (h, false), (tt, db')).
Proof.
  rewrite get_or_create_run. intros Hrun.
  assert (Hagain : ∀ v quantity',
    holdings db' !! (portfolio, stock) = Some v →
    StockHolding_objects_get_or_create portfolio stock quantity' (tt, db') =
      (Ok (StockHolding.mk portfolio stock v, false), (tt, db'))).
  { intros v quantity' Hv. by rewrite get_or_create_run, Hv. }
  destruct (holdings db !! (portfolio, stock)) as [v|] eqn:Hv.
  - injection Hrun as <- <- <-. unfold held. rewrite Hv. cbn.
    repeat split; try done; eauto.
    intros quantity'. by rewrite Hv.
  - destruct (quantity <? 0); [discriminate|]. injection Hrun as <- <- <-.
    unfold held. cbn. rewrite lookup_insert_eq. cbn.
    repeat split; try done; eauto.
    all: first [ intros key Hkey; by rewrite lookup_insert_ne
               | intros quantity'; apply Hagain; cbn; by rewrite lookup_insert_eq ].
Qed.

Lemma get_or_create_idempotent_witness :
  let r := StockHolding_objects_get_or_create 1 1 0 (tt, test_db) in
  fst r = Ok (StockHolding.mk 1 1 0, true)
  ∧ StockHolding_objects_get_or_create 1 1 7 (snd r) =
      (Ok (StockHolding.mk 1 1 0, false), snd r).
Proof.
  intros r.
  assert (Hrun : r = (Ok (StockHolding.mk 1 1 0, true), (tt, snd (snd r))))
    by (vm_compute; reflexivity).
  destruct (get_or_create_idempotent 1 1 0 test_db _ _ _ Hrun) as (_ & _ & _ & _ & _ & Hagain).
  split; [vm_compute; reflexivity|].
  replace (snd r) with (tt, snd (snd r)) by (vm_compute; reflexivity).
  apply Hagain.
Defined.

(** X20. Saving again the Stock instance a save has left changes nothing:
    the second save returns and the instance and the database stay as the
    first save left them. *)
Theorem Stock_save_idempotent s db s' db' :
  Stock_save (s, db) = (Ok tt, (s', db')) →
  Stock_save (s', db') = (Ok tt, (s', db')).
Proof.
  rewrite !Stock_save_run.
  destruct (Stock.current_price s <=? 0) eqn:Hprice; [discriminate|].
  intros [= <- <-]. cbn. rewrite Hprice, upper_idempotent.
  unfold with_stocks. cbn. by rewrite insert_insert_eq.
Qed.

Lemma Stock_save_idempotent_witness :
  let r := Stock_save (Stock.mk 3 "googl" "Google" 10000 0, test_db) in
  fst r = Ok tt ∧ Stock_save (snd r) = (Ok tt, snd r).
Proof.
  intros r.
  assert (Hrun : r = (Ok tt, (fst (snd r), snd (snd r)))) by (vm_compute; reflexivity).
  split; [vm_compute; reflexivity|].
  rewrite (surjective_pairing (snd r)).
  apply (Stock_save_idempotent _ _ _ _ Hrun).
Defined.

(** ** Valuation errors and new portfolios *)

(** X21. Computing the total value raises only DoesNotExist, and it does
    so exactly when some holding of the portfolio refers to a stock that
    is not in the stock table; a snapshot then raises the same and stores
    nothing. *)
Theorem calculate_total_value_missing_stock p db :
  (fst (Portfolio_calculate_total_value (p, db)) = Raise DoesNotExist ↔
   ∃ stock q, holdings db !! (Portfolio.pk p, stock) = Some q ∧ stocks db !! stock = None)
  ∧ (∀ e, fst (Portfolio_calculate_total_value (p, db)) = Raise e → e = DoesNotExist)
  ∧ (∀ now, fst (Portfolio_calculate_total_value (p, db)) = Raise DoesNotExist →
       Portfolio_create_daily_snapshot now (p, db) = (Raise DoesNotExist, (p, db))).
Proof.
  split; [|split].
  - rewrite (calculate_total_value_rows p db _ (reflexivity _)).
    destruct (decide _) as [Hall|Hnot]; split.
    + discriminate.
    + intros (stock & q & Hq & Hnone). exfalso.
      rewrite Forall_forall in Hall.
      destruct (Hall (StockHolding.mk (Portfolio.pk p) stock q)) as [s Hs].
      * by apply elem_of_holdings_all.
      * cbn in Hs. congruence.
    + intros _. apply not_Forall_Exists in Hnot; [|apply _].
      apply Exists_exists in Hnot as (h & [Hp Hlook]%elem_of_holdings_all & Hmissing).
      exists (StockHolding.stock h), (StockHolding.quantity h). split; [exact Hlook|].
      cbn in Hmissing. by apply eq_None_not_Some.
    + reflexivity.
  - intros e. rewrite (calculate_total_value_rows p db _ (reflexivity _)).
    destruct (decide _); [discriminate | by intros [= <-]].
  - intros now Hraise. by rewrite create_daily_snapshot_run, Hraise.
Qed.

Lemma Portfolio_objects_create_run now user balance db :
  let k := fresh (dom (portfolios db)) in
  let p := Portfolio.mk k user balance now in
  Portfolio_objects_create now user balance (tt, db) =
    (Ok p, (tt, with_portfolios (insert k p) db)).
Proof. reflexivity. Qed.

(** X22. In a database where every holding belongs to a stored portfolio
    and the user has no portfolio yet, creating a portfolio for the user
    returns an instance stored under a key that was not in use, with the
    user and the balance given and the other rows as they were, and a
    snapshot taken of it records that balance both as total value and as
    cash balance. *)
Theorem snapshot_of_new_portfolio now now' user balance db :
  holdings_owned db →
  (∀ k p, portfolios db !! k = Some p → Portfolio.user p ≠ user) →
  ∃ p db1,
    Portfolio_objects_create now user balance (tt, db) = (Ok p, (tt, db1))
    ∧ portfolios db !! Portfolio.pk p = None
    ∧ portfolios db1 !! Portfolio.pk p = Some p
    ∧ (∀ k, k ≠ Portfolio.pk p → portfolios db1 !! k = portfolios db !! k)
    ∧ Portfolio.user p = user ∧ Portfolio.balance p = balance
    ∧ fst (Portfolio_create_daily_snapshot now' (p, db1)) =
        Ok (PortfolioSnapshot.mk (Portfolio.pk p) balance balance now').
Proof.
  intros Howned _. rewrite Portfolio_objects_create_run. cbn zeta.
  set (k := fresh (dom (portfolios db))).
  assert (Hfresh : portfolios db !! k = None) by apply not_elem_of_dom, is_fresh.
  eexists _, _. split; [reflexivity|].
  cbn [with_portfolios portfolios Portfolio.pk Portfolio.user Portfolio.balance].
  split; [exact Hfresh|]. split; [apply lookup_insert_eq|].
  split; [intros k' Hk'; by rewrite lookup_insert_ne|].
  split; [reflexivity|]. split; [reflexivity|].
  rewrite create_daily_snapshot_run, calculate_total_value_run, holdings_all_nil.
  - cbn. by rewrite Z.add_0_r.
  - intros stock. cbn. apply eq_None_not_Some. intros Hsome.
    apply Howned in Hsome. rewrite Hfresh in Hsome. by destruct Hsome.
Qed.

Lemma snapshot_of_new_portfolio_witness :
  ∃ p db1,
    Portfolio_objects_create 0 9 100000 (tt, two_portfolios_db) = (Ok p, (tt, db1))
    ∧ portfolios two_portfolios_db !! Portfolio.pk p = None
    ∧ fst (Portfolio_create_daily_snapshot 9 (p, db1)) =
        Ok (PortfolioSnapshot.mk (Portfolio.pk p) 100000 100000 9).
Proof.
  assert (Howned : holdings_owned two_portfolios_db).
  { intros portfolio stock [q Hq]. unfold two_portfolios_db in *. cbn [holdings portfolios] in *.
    rewrite !lookup_insert_Some, lookup_singleton_Some in Hq.
    destruct Hq as [[[= <- <-] _] | [_ [[[= <- <-] _] | [_ [[= <- <-] _]]]]];
      eexists; vm_compute; reflexivity. }
  assert (Hnew : ∀ k p, portfolios two_portfolios_db !! k = Some p → Portfolio.user p ≠ 9).
  { intros k p Hp. unfold two_portfolios_db in Hp. cbn [portfolios] in Hp.
    rewrite lookup_insert_Some, lookup_singleton_Some in Hp.
    destruct Hp as [[_ <-] | [_ [_ <-]]]; vm_compute; discriminate. }
  destruct (snapshot_of_new_portfolio 0 9 9 100000 two_portfolios_db Howned Hnew)
    as (p & db1 & Hrun & Hfresh & _ & _ & _ & _ & Hsnap).
  exists p, db1. split; [exact Hrun|]. split; [exact Hfresh | exact Hsnap].
Defined.

(** X23. A holding that has been saved is the one [get_or_create] finds:
    when [StockHolding.save] returns, the quantity is not negative, the row
    of the pair holds it, the other rows are as before, and [get_or_create]
    for the pair returns the saved instance without creating anything. *)
Theorem StockHolding_save_then_get h db h' db' :
  StockHolding_save (h, db) = (Ok tt, (h', db')) →
  h' = h
  ∧ 0 ≤ StockHolding.quantity h
  ∧ (∀ key, key ≠ (StockHolding.portfolio h, StockHolding.stock h) →
       holdings db' !! key = holdings db !! key)
  ∧ ∀ quantity,
      StockHolding_objects_get_or_create (StockHolding.portfolio h) (StockHolding.stock h)
        quantity (tt, db') = (Ok (h, false), (tt, db')).
Proof.
  rewrite StockHolding_save_run.
  destruct (Z.ltb_spec (StockHolding.quantity h) 0); [discriminate|].
  intros [= <- <-]. repeat split; [done|..].
  - intros key Hkey. cbn. by rewrite lookup_insert_ne.
  - intros quantity. rewrite get_or_create_run. cbn [with_holdings holdings].
    rewrite lookup_insert_eq. by destruct h.
Qed.

Lemma StockHolding_save_then_get_witness :
  let r := StockHolding_save (StockHolding.mk 1 1 4, test_db) in
  fst r = Ok tt
  ∧ StockHolding_objects_get_or_create 1 1 0 (tt, db_after r) =
      (Ok (StockHolding.mk 1 1 4, false), (tt, db_after r)).
Proof.
  intros r.
  assert (Hrun : r = (Ok tt, (fst (snd r), snd (snd r)))) by (vm_compute; reflexivity).
  destruct (StockHolding_save_then_get _ _ _ _ Hrun) as (_ & _ & _ & Hget).
  split; [vm_compute; reflexivity|]. apply (Hget 0).
Defined.

(** X24. Cash is conserved by buying: when a series of buys made one after
    the other on an instance all return, the log has grown by one
    transaction per buy, and the balance the instance ends with plus the
    total amounts of those transactions is the balance it started with. *)
Theorem buy_each_conserves_cash now orders p db p' db' :
  buy_each now orders (p, db) = (Ok tt, (p', db')) →
  ∃ new, transactions db' = transactions db ++ new
         ∧ length new = length orders
         ∧ Portfolio.balance p' + sum_total_amounts new = Portfolio.balance p.
Proof.
  revert p db. induction orders as [|[stock q] orders IH]; intros p db.
  - intros [= <- <-]. exists []. rewrite app_nil_r. cbn. repeat split. lia.
  - cbn [buy_each fst snd]. unfold bind at 1.
    destruct (Portfolio_buy_stock now stock q (p, db)) as [[[]|e] [p1 db1]] eqn:Hbuy;
      [|discriminate].
    intros Hrest. apply IH in Hrest as (new & Hnew & Hlen & Hsum).
    apply buy_stock_Ok_inv in Hbuy as (_ & _ & -> & ->).
    cbn [transactions Portfolio_set_balance Portfolio.balance] in Hnew, Hsum.
    eexists (_ :: new). rewrite Hnew, <- app_assoc. split; [reflexivity|].
    split; [cbn; by rewrite Hlen|].
    unfold sum_total_amounts in *. cbn. lia.
Qed.

Lemma buy_each_conserves_cash_witness :
  let r := buy_each 5 [(test_stock, 2); (test_stock, 3)] (test_portfolio, test_db) in
  fst r = Ok tt
  ∧ ∃ new, transactions (db_after r) = transactions test_db ++ new
           ∧ Portfolio.balance (fst (snd r)) + sum_total_amounts new = 100000.
Proof.
  intros r.
  assert (Hrun : r = (Ok tt, (fst (snd r), snd (snd r)))) by (vm_compute; reflexivity).
  destruct (buy_each_conserves_cash _ _ _ _ _ _ Hrun) as (new & Hnew & _ & Hsum).
  split; [vm_compute; reflexivity|]. exists new. split; [exact Hnew | exact Hsum].
Defined.
